(** * sdc: create or delete machines in a SmartDataCenter

    A shallow embedding of [cloud/smartdatacenter/sdc.py] and the
    properties of its reconciliation logic.

    The module talks to two collaborators that live outside the file: the
    [smartdc] SDK (the [DataCenter] object and the machine handles it hands
    out) and the clock of the [time] module.  Both are modelled as one
    [provider]: a function that answers every call from the history of the
    calls issued so far.  Quantifying over the provider covers every
    behaviour the cloud can show; the history doubles as the trace of API
    calls the properties speak about.  A call always gets an answer in this
    model (exceptions thrown inside the SDK are not represented), and the
    clock is read in whole seconds. *)

From Stdlib Require Import ZArith Lia.
From stdpp Require Import gmap strings list fin_maps pretty.

Open Scope Z_scope.

Module Sdc.

(** ** Data *)

(** Tag sets are Python dicts from strings to strings. *)
Abbreviation tagset := (gmap string string).

(** A machine handle of the SDK; the module only ever reads [sm.id]. *)
Record machine := Machine { sm_id : string }.

(** The raw provider record returned by [raw_machine_data]; opaque here. *)
Record raw_data := RawData { raw_of : string }.

(** The calls the module issues, indexed by the type of their answer. *)
Inductive call : Type -> Type :=
| Machines (tags : tagset) (state : option string) : call (list machine)
| GetMachine (machine_id : string) : call machine
| CreateMachine (name package image : option string)
    (networks : option (list string)) (tags : tagset) : call machine
| RawMachineData (machine_id : string) : call raw_data
| Status (sm : machine) : call string
| Stop (sm : machine) : call unit
| Delete (sm : machine) : call unit
| TimeTime : call Z
| TimeSleep (secs : Z) : call unit.

Inductive event : Type := Ev : forall R : Type, call R -> event.
Arguments Ev {R} c.

(** The history is chronological: the oldest call comes first. *)
Abbreviation history := (list event).

Definition provider := history -> forall R, call R -> R.

(** [module.params], after the host's argument_spec has been applied:
    options with a default always hold a value, the others may be [None]. *)
Record params := Params {
  machine_id : option string;
  name : option string;
  location : option string;
  account : option string;
  key_id : option string;
  image : option string;
  package : option string;
  tags : tagset;
  count : Z;
  count_tag : tagset;
  exact_count : option Z;
  networks : option (list string);
  secret_key_path : string;
  state : string;
  wait : bool;
  wait_timeout : Z
}.

(** ** Effects *)

Inductive exn :=
| TypeError
| UnboundLocalError.

(** How a computation ends: normally, through [module.fail_json] (which
    exits the process), through a Python exception, or, for the model
    only, because the fuel given to a [while] loop ran out. *)
Inductive outcome (A : Type) :=
| Ok (a : A)
| FailJson (msg : string)
| Raised (e : exn)
| OutOfFuel.
Arguments Ok {A} a.
Arguments FailJson {A} msg.
Arguments Raised {A} e.
Arguments OutOfFuel {A}.

Definition M (A : Type) : Type := history -> outcome A * history.

#[export] Instance M_ret : MRet M := fun A a h => (Ok a, h).

#[export] Instance M_bind : MBind M := fun A B k m h =>
  match m h with
  | (Ok a, h') => k a h'
  | (FailJson msg, h') => (FailJson msg, h')
  | (Raised e, h') => (Raised e, h')
  | (OutOfFuel, h') => (OutOfFuel, h')
  end.

Definition fail_json {A} (msg : string) : M A := fun h => (FailJson msg, h).
Definition raise {A} (e : exn) : M A := fun h => (Raised e, h).
Definition out_of_fuel {A} : M A := fun h => (OutOfFuel, h).

(** Python's [int(x)] on an optional integer parameter. *)
Definition py_int (v : option Z) : M Z :=
  match v with
  | Some z => mret z
  | None => raise TypeError
  end.

(** Truth value of an optional string: [None] and [''] are false. *)
Definition truthy_str (v : option string) : bool :=
  match v with
  | Some s => negb (String.eqb s "")
  | None => false
  end.

(** Truth value of a dict: false exactly when it is empty. *)
Definition truthy_dict (d : tagset) : bool := bool_decide (d ≠ ∅).

(** Truth value of a list. *)
Definition truthy_list {A} (l : list A) : bool :=
  match l with [] => false | _ => true end.

(** [d.items()]. *)
Definition items (d : tagset) : list (string * string) := map_to_list d.

(** [dict(pairs)]: pairs are inserted left to right, so a later pair
    overwrites an earlier one with the same key. *)
Definition dict (pairs : list (string * string)) : tagset :=
  fold_left (fun d kv => <[kv.1 := kv.2]> d) pairs ∅.

(** Line 206: [dict(tags.items() + count_tag.items())]. *)
Definition full_tags (p : params) : tagset :=
  dict (items (tags p) ++ items (count_tag p)).

Section Program.

Context (env : provider).

(** Issue a call: ask the provider, record the call. *)
Definition perform {R} (c : call R) : M R :=
  fun h => (Ok (env h R c), h ++ [Ev c]).

(** [all(sm.status() == status for sm in machines)]: the generator is
    consumed lazily, so the first mismatch ends the iteration. *)
Fixpoint all_status (machines : list machine) (status : string) : M bool :=
  match machines with
  | [] => mret true
  | sm :: rest =>
      s ← perform (Status sm);
      if String.eqb s status then all_status rest status else mret false
  end.

(** The [while] loop of [_wait_for_status]; [fuel] bounds its iterations. *)
Fixpoint wait_loop (fuel : nat) (machines : list machine) (status : string)
    (wait_timeout_time : Z) : M unit :=
  match fuel with
  | O => out_of_fuel
  | S fuel' =>
      ok ← all_status machines status;
      if negb ok then
        now ← perform TimeTime;
        if wait_timeout_time >? now then
          perform (TimeSleep 2);;
          wait_loop fuel' machines status wait_timeout_time
        else mret tt
      else mret tt
  end.

(** Lines 167-170 of [_wait_for_status]: read the clock, fix the deadline,
    poll until every machine reports [status] or the deadline has passed. *)
Definition poll_until_deadline (fuel : nat) (p : params)
    (machines : list machine) (status : string) : M unit :=
  let wait_timeout := wait_timeout p in
  t ← perform TimeTime;
  let wait_timeout_time := t + wait_timeout in
  wait_loop fuel machines status wait_timeout_time.

Definition _wait_for_status (fuel : nat) (p : params)
    (machines : list machine) (status : string) : M unit :=
  poll_until_deadline fuel p machines status;;
  (* Check again that all are in expected state. If not, we timed out *)
  ok ← all_status machines status;
  if negb ok then fail_json "Timed out creating machines" else mret tt.

Definition list_existing_machines (tags : tagset) : M (list machine) :=
  if negb (truthy_dict tags) then
    fail_json "Must have tags to list existing machines for deletion/counting"
  else
    machines ← perform (Machines tags (Some "running"));
    mret machines.

(** [for x in range(count_needed)]: one [create_machine] per round, the
    handle appended to [created_machines]. *)
Fixpoint create_loop (rounds : nat) (p : params) (full_tags : tagset)
    (created_machines : list machine) : M (list machine) :=
  match rounds with
  | O => mret created_machines
  | S rounds' =>
      sm ← perform (CreateMachine (name p) (package p) (image p)
                      (networks p) full_tags);
      create_loop rounds' p full_tags (created_machines ++ [sm])
  end.

(** [[sdc.raw_machine_data(sm.id) for sm in all_machines]]. *)
Fixpoint raw_machine_data_all (all_machines : list machine)
    : M (list raw_data) :=
  match all_machines with
  | [] => mret []
  | sm :: rest =>
      r ← perform (RawMachineData (sm_id sm));
      rs ← raw_machine_data_all rest;
      mret (r :: rs)
  end.

(** Lines 215-227 of [create_virtual_machine]: create what is needed,
    wait if requested, report all machines. *)
Definition create_and_report (fuel : nat) (p : params)
    (existing_machines : list machine) (count_needed : Z)
    : M (bool * list raw_data) :=
  (* Make sure we actually need to create machines *)
  '(changed, created_machines) ←
    (if count_needed >? 0 then
       (* Batch create, we'll wait later *)
       created_machines ←
         create_loop (Z.to_nat count_needed) p (full_tags p) [];
       (* Wait on machines to be running if requested *)
       (if wait p then _wait_for_status fuel p created_machines "running"
        else mret tt);;
       mret (true, created_machines)
     else mret (false, []));
  let all_machines := existing_machines ++ created_machines in
  rs ← raw_machine_data_all all_machines;
  mret (changed, rs).

Definition create_virtual_machine (fuel : nat) (p : params)
    : M (bool * list raw_data) :=
  exact_count ← py_int (exact_count p);
  let count_tag := count_tag p in
  let count := count p in
  (* Get existing machines if we're using exact_count *)
  '(existing_machines, count_needed) ←
    (if truthy_dict count_tag && negb (exact_count =? 0) then
       existing_machines ← list_existing_machines count_tag;
       mret (existing_machines,
             exact_count - Z.of_nat (length existing_machines))
     else mret ([], count));
  create_and_report fuel p existing_machines count_needed.

(** [[sm.stop() for sm in machines]] and [[sm.delete() for sm in machines]]. *)
Fixpoint for_each (f : machine -> call unit) (machines : list machine)
    : M unit :=
  match machines with
  | [] => mret tt
  | sm :: rest => perform (f sm);; for_each f rest
  end.

Definition delete_machines (fuel : nat) (p : params) : M bool :=
  machines ←
    (if truthy_dict (tags p) then perform (Machines (tags p) None)
     else if truthy_str (machine_id p) then
       sm ← perform (GetMachine (default "" (machine_id p)));
       mret [sm]
     else mret []);
  if truthy_list machines then
    (* Stop machines first, as the API docs say it is required *)
    for_each Stop machines;;
    _wait_for_status fuel p machines "stopped";;
    for_each Delete machines;;
    mret true
  else mret false.

Definition get_sdc_creds (p : params) : M (string * string) :=
  if negb (truthy_str (account p)) then fail_json "No account provided"
  else if negb (truthy_str (key_id p)) then fail_json "No key_id provided"
  else mret (default "" (account p), default "" (key_id p)).

(** [main]: the value is what [module.exit_json] receives.  Building the
    [DataCenter] object issues no call. *)
Definition main (HAS_SMARTDC : bool) (fuel : nat) (p : params)
    : M (bool * list raw_data) :=
  if negb HAS_SMARTDC then fail_json "smartdc python module is required"
  else
    get_sdc_creds p;;
    if String.eqb (state p) "absent" then
      changed ← delete_machines fuel p;
      mret (changed, [])
    else if String.eqb (state p) "present" then
      if negb (truthy_str (image p)) then
        fail_json "image parameter is required for new instance"
      else create_virtual_machine fuel p
    else raise UnboundLocalError.

End Program.

(** ** Reading the trace *)

Definition is_create (e : event) : bool :=
  match e with Ev (CreateMachine _ _ _ _ _) => true | _ => false end.

Definition is_listing (e : event) : bool :=
  match e with Ev (Machines _ _) => true | _ => false end.

(** The calls a convergence wait may issue. *)
Definition is_wait_event (e : event) : bool :=
  match e with
  | Ev (Status _) | Ev TimeTime | Ev (TimeSleep _) => true
  | _ => false
  end.

(** Tags handed to a create call. *)
Definition create_tags (e : event) : option tagset :=
  match e with Ev (CreateMachine _ _ _ _ tg) => Some tg | _ => None end.

(** The machine a stop call, or a delete call, acts on. *)
Definition stopped_machine (e : event) : option machine :=
  match e with Ev (Stop sm) => Some sm | _ => None end.

Definition deleted_machine (e : event) : option machine :=
  match e with Ev (Delete sm) => Some sm | _ => None end.

(** The machine a status call asks about. *)
Definition status_machine (e : event) : option machine :=
  match e with Ev (Status sm) => Some sm | _ => None end.

(** The machines whose status a trace queries, in order. *)
Definition queried (h : history) : list machine := omap status_machine h.

(** Number of create calls in a trace. *)
Definition creates (h : history) : nat := length (filter is_create h).

(** Seconds the module asked to sleep in a trace. *)
Fixpoint slept (h : history) : Z :=
  match h with
  | [] => 0
  | Ev (TimeSleep secs) :: h' => secs + slept h'
  | _ :: h' => slept h'
  end.

(** The one assumption on the clock: it never runs backwards and a
    [time.sleep(n)] lets at least [n] seconds pass. *)
Definition clock_advances (env : provider) : Prop :=
  forall h h' : history,
    env h Z TimeTime + slept h' <= env (h ++ Ev TimeTime :: h') Z TimeTime.

(** The create call the module issues for parameters [p]. *)
Definition create_event (p : params) : event :=
  Ev (CreateMachine (name p) (package p) (image p) (networks p) (full_tags p)).

(** Calls that are neither a listing nor a create. *)
Definition quiet (e : event) : Prop :=
  is_listing e = false /\ is_create e = false.

(** The three ways [delete_machines] picks its machines. *)
Definition selected (env : provider) (p : params) (h : history)
    : list machine * history :=
  if truthy_dict (tags p) then
    (env h _ (Machines (tags p) None), [Ev (Machines (tags p) None)])
  else if truthy_str (machine_id p) then
    ([env h _ (GetMachine (default "" (machine_id p)))],
     [Ev (GetMachine (default "" (machine_id p)))])
  else ([], []).

(** Events of one call per machine. *)
Definition status_events (machines : list machine) : history :=
  (fun sm => Ev (Status sm)) <$> machines.
Definition stop_events (machines : list machine) : history :=
  (fun sm => Ev (Stop sm)) <$> machines.
Definition delete_events (machines : list machine) : history :=
  (fun sm => Ev (Delete sm)) <$> machines.
Definition raw_events (machines : list machine) : history :=
  (fun sm => Ev (RawMachineData (sm_id sm))) <$> machines.

(** Fuel that covers a wait of [wait_timeout] seconds polled every two
    seconds. *)
Definition enough_fuel (fuel : nat) (p : params) : Prop :=
  (0 < fuel)%nat /\ wait_timeout p + 2 <= 2 * Z.of_nat fuel.

(** ** A simulated data center

    Used to run the module on concrete inputs.  It starts with the
    machines [initial], names new machines after the number of create
    calls seen so far, answers every status query through [status_of],
    and its clock shows the seconds slept so far. *)
Definition simulated (initial : list machine)
    (status_of : history -> machine -> string) : provider :=
  fun h R c =>
    match c in call R return R with
    | Machines _ _ => initial
    | GetMachine machine_id => Machine machine_id
    | CreateMachine _ _ _ _ _ =>
        Machine (String.append "new-" (pretty (creates h)))
    | RawMachineData machine_id => RawData machine_id
    | Status sm => status_of h sm
    | Stop _ => tt
    | Delete _ => tt
    | TimeTime => slept h
    | TimeSleep _ => tt
    end.

(** A second simulated data center, which keeps the tags: a listing
    returns the machines created so far that carry every pair of the
    selector.  All its machines run. *)
Definition tags_match (selector tg : tagset) : bool :=
  bool_decide (map_Forall (fun k v => tg !! k = Some v) selector).

Fixpoint created_so_far (n : nat) (h : history) : list (machine * tagset) :=
  match h with
  | [] => []
  | Ev (CreateMachine _ _ _ _ tg) :: h' =>
      (Machine (String.append "new-" (pretty n)), tg) :: created_so_far (S n) h'
  | _ :: h' => created_so_far n h'
  end.

Definition tagged : provider :=
  fun h R c =>
    match c in call R return R with
    | Machines selector _ =>
        fst <$> filter (fun mt => tags_match selector mt.2 = true)
                  (created_so_far 0 h)
    | GetMachine machine_id => Machine machine_id
    | CreateMachine _ _ _ _ _ =>
        Machine (String.append "new-" (pretty (creates h)))
    | RawMachineData machine_id => RawData machine_id
    | Status _ => "running"
    | Stop _ => tt
    | Delete _ => tt
    | TimeTime => slept h
    | TimeSleep _ => tt
    end.

(** A provider whose machines always report the same status. *)
Definition always (status : string) : history -> machine -> string :=
  fun _ _ => status.

(** A provider in which the machine [stuck] never leaves ['provisioning']
    while all others run. *)
Definition all_but (stuck : machine) : history -> machine -> string :=
  fun _ sm =>
    if String.eqb (sm_id sm) (sm_id stuck) then "provisioning" else "running".

(** Parameters of a [state=present] invocation, the rest as in the
    module's examples. *)
Definition request (tags count_tag : tagset) (count : Z)
    (exact_count : option Z) (wait : bool) (wait_timeout : Z) : params :=
  {| machine_id := None; name := None;
     location := Some "us-east-1.api.joyentcloud.com";
     account := Some "myaccount"; key_id := Some "/myaccount/keys/mykey";
     image := Some "62f148f8-6e84-11e4-82c5-efca60348b9f";
     package := Some "486bb054-6a97-4ba3-97b7-2413d5f8e849";
     tags := tags; count := count; count_tag := count_tag;
     exact_count := exact_count; networks := None;
     secret_key_path := "~/.ssh/id_rsa"; state := "present";
     wait := wait; wait_timeout := wait_timeout |}.

(** Parameters of a [state=absent] invocation. *)
Definition removal (tags : tagset) (machine_id : option string)
    (wait_timeout : Z) : params :=
  {| machine_id := machine_id; name := None;
     location := Some "us-east-1.api.joyentcloud.com";
     account := Some "myaccount"; key_id := Some "/myaccount/keys/mykey";
     image := None; package := None;
     tags := tags; count := 1; count_tag := ∅;
     exact_count := None; networks := None;
     secret_key_path := "~/.ssh/id_rsa"; state := "absent";
     wait := true; wait_timeout := wait_timeout |}.

Definition role_web : tagset := {[ "role" := "web" ]}.

(** The kind of a call, for saying which calls a run makes. *)
Inductive kind :=
| KList | KGet | KCreate | KRaw | KStatus | KStop | KDelete | KTime | KSleep.

Definition kind_of (e : event) : kind :=
  match e with
  | Ev (Machines _ _) => KList
  | Ev (GetMachine _) => KGet
  | Ev (CreateMachine _ _ _ _ _) => KCreate
  | Ev (RawMachineData _) => KRaw
  | Ev (Status _) => KStatus
  | Ev (Stop _) => KStop
  | Ev (Delete _) => KDelete
  | Ev TimeTime => KTime
  | Ev (TimeSleep _) => KSleep
  end.

(** The seconds a sleep call asks for. *)
Definition sleep_secs (e : event) : option Z :=
  match e with Ev (TimeSleep secs) => Some secs | _ => None end.

(** The handles the provider returned for the create calls of [new], a
    run of calls issued after [h]. *)
Fixpoint created_by (env : provider) (h new : history) : list machine :=
  match new with
  | [] => []
  | e :: new' =>
      match e with
      | Ev c =>
          match c in call R return list machine with
          | CreateMachine n pk im nw tg =>
              [env h machine (CreateMachine n pk im nw tg)]
          | _ => []
          end
      end ++ created_by env (h ++ [e]) new'
  end.

(** The messages [main] can hand to [fail_json] before it issues a call. *)
Definition validation_messages : list string :=
  [ "smartdc python module is required";
    "No account provided";
    "No key_id provided";
    "image parameter is required for new instance" ].

(** ** Running computations *)

Lemma run_bind {A B} (m : M A) (k : A -> M B) (h : history) :
  (m ≫= k) h =
  match m h with
  | (Ok a, h') => k a h'
  | (FailJson msg, h') => (FailJson msg, h')
  | (Raised e, h') => (Raised e, h')
  | (OutOfFuel, h') => (OutOfFuel, h')
  end.
Proof. reflexivity. Qed.

Lemma run_ret {A} (a : A) (h : history) : mret (M := M) a h = (Ok a, h).
Proof. reflexivity. Qed.

Lemma slept_app (h1 h2 : history) : slept (h1 ++ h2) = slept h1 + slept h2.
Proof.
  induction h1 as [|[R c] h1 IH]; simpl; [lia|].
  destruct c; rewrite ?IH; lia.
Qed.

Lemma slept_status_events (ms : list machine) : slept (status_events ms) = 0.
Proof. induction ms as [|sm ms IH]; simpl; auto. Qed.

Lemma creates_app (h1 h2 : history) :
  creates (h1 ++ h2) = (creates h1 + creates h2)%nat.
Proof. unfold creates. by rewrite filter_app, length_app. Qed.

Lemma creates_wait_events (w : history) :
  Forall (fun e => is_wait_event e = true) w -> creates w = 0%nat.
Proof.
  unfold creates. induction 1 as [|[R c] w Hc Hw IH]; [done|].
  destruct c; try discriminate Hc; simpl; exact IH.
Qed.

Lemma queried_status_events (ms : list machine) :
  queried (status_events ms) = ms.
Proof.
  unfold queried, status_events. induction ms as [|sm ms IH]; simpl; [done|].
  f_equal. exact IH.
Qed.

Lemma Forall_status_events (ms : list machine) :
  Forall (fun e => is_wait_event e = true) (status_events ms).
Proof. unfold status_events. apply Forall_fmap, Forall_forall. done. Qed.

(** ** Merging the tags *)

Lemma fold_insert_union (l : list (string * string)) (m : tagset) :
  NoDup l.*1 ->
  fold_left (fun d kv => <[kv.1 := kv.2]> d) l m = list_to_map l ∪ m.
Proof.
  revert m. induction l as [|[k v] l IH]; intros m Hnd; simpl.
  - by rewrite (left_id_L ∅ (∪)).
  - inversion Hnd as [|? ? Hk Hl]; subst.
    rewrite IH by done.
    rewrite <- insert_union_l.
    symmetry. apply insert_union_r. by apply not_elem_of_list_to_map_1.
Qed.

(** The merged tags are the union in which [count_tag] wins. *)
Lemma full_tags_union (p : params) : full_tags p = count_tag p ∪ tags p.
Proof.
  unfold full_tags, dict, items. rewrite fold_left_app.
  rewrite !fold_insert_union by apply NoDup_fst_map_to_list.
  rewrite (right_id_L ∅ (∪)). by rewrite !list_to_map_to_list.
Qed.

Lemma count_tag_subseteq_full_tags (p : params) : count_tag p ⊆ full_tags p.
Proof. rewrite full_tags_union. apply map_union_subseteq_l. Qed.

Lemma full_tags_lookup_count_tag (p : params) (k v : string) :
  count_tag p !! k = Some v -> full_tags p !! k = Some v.
Proof. rewrite full_tags_union. apply lookup_union_Some_l. Qed.

Lemma creates_replicate (n : nat) (p : params) :
  creates (replicate n (create_event p)) = n.
Proof.
  unfold creates. induction n as [|n IH]; [done|].
  cbn [replicate]. rewrite filter_cons_True by done. simpl. by rewrite IH.
Qed.

Lemma creates_raw_events (ms : list machine) : creates (raw_events ms) = 0%nat.
Proof. unfold creates. by induction ms as [|sm ms IH]. Qed.

Lemma create_tags_replicate (n : nat) (p : params) :
  Forall (fun e => create_tags e = Some (full_tags p))
    (replicate n (create_event p)).
Proof. apply Forall_replicate. reflexivity. Qed.

Lemma quiet_wait_events (w : history) :
  Forall (fun e => is_wait_event e = true) w -> Forall quiet w.
Proof.
  intros Hw. eapply Forall_impl; [exact Hw|]. intros [R c] Hc.
  destruct c; try discriminate Hc; split; reflexivity.
Qed.

Lemma quiet_raw_events (ms : list machine) : Forall quiet (raw_events ms).
Proof. unfold raw_events. apply Forall_fmap, Forall_forall. by split. Qed.

Lemma quiet_creates (w : history) : Forall quiet w -> creates w = 0%nat.
Proof.
  unfold creates. induction 1 as [|e w [_ He] Hw IH]; [done|].
  by rewrite filter_cons_False by (rewrite He; auto).
Qed.

Lemma quiet_create_tags (w : history) (P : tagset -> Prop) :
  Forall quiet w ->
  Forall (fun e => forall tg, create_tags e = Some tg -> P tg) w.
Proof.
  intros Hw. eapply Forall_impl; [exact Hw|]. intros [R c] [_ Hc] tg.
  destruct c; try discriminate; discriminate Hc.
Qed.

(** The simulated clock shows the seconds slept: it advances. *)
Lemma simulated_clock (initial : list machine)
    (status_of : history -> machine -> string) :
  clock_advances (simulated initial status_of).
Proof. intros h h'. simpl. rewrite slept_app. simpl. lia. Qed.

Section Runs.

Context (env : provider).

Lemma perform_run {R} (c : call R) (h : history) :
  perform env c h = (Ok (env h R c), h ++ [Ev c]).
Proof. reflexivity. Qed.

(** One pass of [all(...)] queries a prefix of the machines, in order, and
    says yes only after having queried them all. *)
Lemma all_status_run (ms : list machine) (st : string) (h : history) :
  exists (b : bool) (k : nat),
    all_status env ms st h = (Ok b, h ++ status_events (take k ms)) /\
    (k <= length ms)%nat /\
    (b = true -> k = length ms) /\
    (ms <> [] -> (0 < k)%nat).
Proof.
  revert h. induction ms as [|sm ms IH]; intros h.
  - exists true, 0%nat. simpl. rewrite app_nil_r. repeat split; auto; done.
  - simpl. rewrite run_bind, perform_run.
    destruct (String.eqb (env h string (Status sm)) st).
    + destruct (IH (h ++ [Ev (Status sm)])) as (b & k & Hrun & Hk & Hb & _).
      exists b, (S k). rewrite Hrun. simpl. rewrite <- app_assoc. simpl.
      repeat split; auto; try lia; try (intros ->; by rewrite Hb).
    + exists false, 1%nat. simpl. rewrite ?take_0. simpl.
      repeat split; auto; try lia; done.
Qed.

(** If every machine answers [st] whenever asked, a pass queries them all. *)
Lemma all_status_true (ms : list machine) (st : string) (h : history) :
  (forall (h' : history) (sm : machine),
      sm ∈ ms -> env h' string (Status sm) = st) ->
  all_status env ms st h = (Ok true, h ++ status_events ms).
Proof.
  revert h. induction ms as [|sm ms IH]; intros h Hall.
  - simpl. by rewrite app_nil_r.
  - simpl. rewrite run_bind, perform_run, Hall by left.
    rewrite String.eqb_refl, IH.
    + by rewrite <- app_assoc.
    + intros h' sm' Hin. apply Hall. by right.
Qed.

(** What the verdict of a pass means: yes when every machine, asked in
    turn, answered [st]; no when some machine, asked after the ones before
    it had answered [st], gave another answer, at which point the pass
    stopped. *)
Lemma all_status_verdict (ms : list machine) (st : string) (h h' : history)
    (b : bool) :
  all_status env ms st h = (Ok b, h') ->
  if b then
    forall (i : nat) (sm : machine),
      ms !! i = Some sm ->
      env (h ++ status_events (take i ms)) string (Status sm) = st
  else
    exists (i : nat) (sm : machine),
      ms !! i = Some sm /\
      env (h ++ status_events (take i ms)) string (Status sm) <> st /\
      h' = h ++ status_events (take (S i) ms).
Proof.
  revert h. induction ms as [|sm0 ms IH]; intros h.
  - simpl. rewrite run_ret. intros [= <- <-]. intros i sm Hi. done.
  - simpl. rewrite run_bind, perform_run.
    destruct (String.eqb_spec (env h string (Status sm0)) st) as [Heq|Hne].
    + intros Hrun. specialize (IH _ Hrun). destruct b.
      * intros [|i] sm Hi; simpl in *.
        -- injection Hi as <-. by rewrite app_nil_r.
        -- specialize (IH i sm Hi). by rewrite <- app_assoc in IH.
      * destruct IH as (i & sm & Hi & Hans & ->).
        exists (S i), sm. simpl. rewrite <- !app_assoc in *. done.
    + rewrite run_ret. intros [= <- <-].
      exists 0%nat, sm0. simpl. rewrite ?take_0, app_nil_r. done.
Qed.

(** Whatever the fuel, the polling loop only issues status, clock and
    sleep calls, and ends normally or for lack of fuel. *)
Lemma wait_loop_run (fuel : nat) (ms : list machine) (st : string) (d : Z)
    (h : history) :
  exists (r : outcome unit) (w : history),
    wait_loop env fuel ms st d h = (r, h ++ w) /\
    Forall (fun e => is_wait_event e = true) w /\
    (r = Ok tt \/ r = OutOfFuel).
Proof.
  revert h. induction fuel as [|fuel IH]; intros h.
  - exists OutOfFuel, []. simpl. rewrite app_nil_r. auto.
  - simpl. rewrite run_bind.
    destruct (all_status_run ms st h) as (b & k & -> & _).
    destruct b; simpl.
    + exists (Ok tt), (status_events (take k ms)).
      split; [done|]. split; [apply Forall_status_events|auto].
    + rewrite run_bind, perform_run.
      destruct (d >? _).
      * rewrite run_bind, perform_run.
        match goal with |- context [wait_loop env fuel ms st d ?h1] =>
          destruct (IH h1) as (r & w & -> & Hw & Hr) end.
        exists r, (status_events (take k ms) ++ [Ev TimeTime]
                   ++ [Ev (TimeSleep 2)] ++ w).
        split; [by rewrite <- !app_assoc|]. split; [|done].
        apply Forall_app. split; [apply Forall_status_events|].
        repeat constructor. done.
      * exists (Ok tt), (status_events (take k ms) ++ [Ev TimeTime]).
        split; [by rewrite <- !app_assoc|]. split; [|auto].
        apply Forall_app. split; [apply Forall_status_events|].
        repeat constructor.
Qed.

(** With a clock that advances, the loop ends normally once the fuel
    covers the time left until the deadline. *)
Lemma wait_loop_returns (fuel : nat) (ms : list machine) (st : string)
    (d : Z) (h0 hm : history) :
  clock_advances env ->
  (0 < fuel)%nat ->
  d - (env h0 Z TimeTime + slept hm) + 2 <= 2 * Z.of_nat fuel ->
  fst (wait_loop env fuel ms st d (h0 ++ Ev TimeTime :: hm)) = Ok tt.
Proof.
  intros Hclock. revert hm.
  induction fuel as [|fuel IH]; intros hm Hpos Hfuel; [lia|].
  simpl. rewrite run_bind.
  destruct (all_status_run ms st (h0 ++ Ev TimeTime :: hm))
    as (b & k & -> & _).
  destruct b; simpl; [done|].
  rewrite run_bind, perform_run.
  rewrite <- app_assoc. simpl.
  pose proof (Hclock h0 (hm ++ status_events (take k ms))) as Hnow.
  rewrite slept_app, slept_status_events in Hnow.
  destruct (Z.gtb_spec d
    (env (h0 ++ Ev TimeTime :: hm ++ status_events (take k ms)) Z TimeTime))
    as [Hgt|Hle]; [|done].
  rewrite run_bind, perform_run.
  rewrite <- !app_assoc. simpl. rewrite <- !app_assoc. simpl.
  apply IH; [lia|].
  rewrite !slept_app, slept_status_events. simpl. lia.
Qed.

(** The first part of a wait: one clock reading, then the loop. *)
Lemma poll_until_deadline_run (fuel : nat) (p : params) (ms : list machine)
    (st : string) (h : history) :
  exists (r : outcome unit) (w : history),
    poll_until_deadline env fuel p ms st h = (r, h ++ Ev TimeTime :: w) /\
    Forall (fun e => is_wait_event e = true) w /\
    (r = Ok tt \/ r = OutOfFuel).
Proof.
  unfold poll_until_deadline. rewrite run_bind, perform_run.
  destruct (wait_loop_run fuel ms st
              (env h Z TimeTime + wait_timeout p) (h ++ [Ev TimeTime]))
    as (r & w & -> & Hw & Hr).
  exists r, w. by rewrite <- app_assoc.
Qed.

Lemma poll_until_deadline_returns (fuel : nat) (p : params)
    (ms : list machine) (st : string) (h : history) :
  clock_advances env -> enough_fuel fuel p ->
  fst (poll_until_deadline env fuel p ms st h) = Ok tt.
Proof.
  intros Hclock [Hpos Hfuel].
  unfold poll_until_deadline. rewrite run_bind, perform_run.
  change (h ++ [Ev TimeTime]) with (h ++ Ev TimeTime :: []).
  apply wait_loop_returns; auto. simpl. lia.
Qed.

(** A whole wait: its calls, and the three ways it can end. *)
Lemma wait_for_status_run (fuel : nat) (p : params) (ms : list machine)
    (st : string) (h : history) :
  exists (r : outcome unit) (w : history),
    _wait_for_status env fuel p ms st h = (r, h ++ w) /\
    Forall (fun e => is_wait_event e = true) w /\
    (r = Ok tt \/ r = FailJson "Timed out creating machines"
     \/ r = OutOfFuel).
Proof.
  unfold _wait_for_status. rewrite run_bind.
  destruct (poll_until_deadline_run fuel p ms st h)
    as (r & w & -> & Hw & [-> | ->]).
  - rewrite run_bind.
    destruct (all_status_run ms st (h ++ Ev TimeTime :: w))
      as (b & k & -> & _).
    exists (if b then Ok tt else FailJson "Timed out creating machines"),
      (Ev TimeTime :: w ++ status_events (take k ms)).
    split; [|split].
    + rewrite <- app_assoc. by destruct b.
    + constructor; [done|].
      apply Forall_app. split; [done|apply Forall_status_events].
    + destruct b; auto.
  - exists OutOfFuel, (Ev TimeTime :: w). split; [done|].
    split; [by constructor|auto].
Qed.

Lemma wait_for_status_returns (fuel : nat) (p : params) (ms : list machine)
    (st : string) (h : history) :
  clock_advances env -> enough_fuel fuel p ->
  fst (_wait_for_status env fuel p ms st h) <> OutOfFuel.
Proof.
  intros Hclock Hfuel. unfold _wait_for_status. rewrite run_bind.
  pose proof (poll_until_deadline_returns fuel p ms st h Hclock Hfuel) as Hp.
  destruct (poll_until_deadline env fuel p ms st h) as [r h1].
  simpl in Hp. subst r. rewrite run_bind.
  destruct (all_status_run ms st h1) as (b & k & -> & _).
  by destruct b.
Qed.

(** The batch of create calls: [n] identical calls, [n] new handles. *)
Lemma create_loop_run (n : nat) (p : params) (acc : list machine)
    (h : history) :
  exists ms : list machine,
    create_loop env n p (full_tags p) acc h
      = (Ok (acc ++ ms), h ++ replicate n (create_event p)) /\
    length ms = n.
Proof.
  revert acc h. induction n as [|n IH]; intros acc h; simpl.
  - exists []. by rewrite !app_nil_r.
  - rewrite run_bind, perform_run.
    destruct (IH (acc ++ [env h machine (CreateMachine (name p) (package p)
                 (image p) (networks p) (full_tags p))]) (h ++ [create_event p]))
      as (ms & Hrun & Hlen).
    unfold create_event in *. rewrite Hrun.
    eexists (_ :: ms). rewrite <- !app_assoc. simpl. split; [done|].
    by rewrite Hlen.
Qed.

Lemma raw_machine_data_all_run (ms : list machine) (h : history) :
  exists rs : list raw_data,
    raw_machine_data_all env ms h = (Ok rs, h ++ raw_events ms) /\
    length rs = length ms.
Proof.
  revert h. induction ms as [|sm ms IH]; intros h; simpl.
  - exists []. by rewrite app_nil_r.
  - rewrite run_bind, perform_run, run_bind.
    destruct (IH (h ++ [Ev (RawMachineData (sm_id sm))])) as (rs & -> & Hlen).
    eexists (_ :: rs). rewrite <- app_assoc. simpl. split; [done|].
    by rewrite Hlen.
Qed.

Lemma for_each_run (f : machine -> call unit) (ms : list machine)
    (h : history) :
  for_each env f ms h = (Ok tt, h ++ ((fun sm => Ev (f sm)) <$> ms)).
Proof.
  revert h. induction ms as [|sm ms IH]; intros h; simpl.
  - by rewrite app_nil_r.
  - rewrite run_bind, perform_run, IH. by rewrite <- app_assoc.
Qed.

(** Lines 215-227, case by case. *)
Lemma create_and_report_idle (fuel : nat) (p : params)
    (existing : list machine) (needed : Z) (h : history) :
  needed <= 0 ->
  exists rs : list raw_data,
    create_and_report env fuel p existing needed h
      = (Ok (false, rs), h ++ raw_events existing) /\
    length rs = length existing.
Proof.
  intros Hle. unfold create_and_report. rewrite run_bind.
  destruct (Z.gtb_spec needed 0); [lia|]. rewrite run_ret, run_bind.
  rewrite app_nil_r.
  destruct (raw_machine_data_all_run existing h) as (rs & -> & Hlen).
  by exists rs.
Qed.

Lemma create_and_report_busy (fuel : nat) (p : params)
    (existing : list machine) (needed : Z) (h : history) :
  0 < needed ->
  let h2 := h ++ replicate (Z.to_nat needed) (create_event p) in
  exists created : list machine,
    length created = Z.to_nat needed /\
    create_loop env (Z.to_nat needed) p (full_tags p) [] h = (Ok created, h2) /\
    exists (r : outcome unit) (w : history),
      (if wait p then _wait_for_status env fuel p created "running" h2
       else (Ok tt, h2)) = (r, h2 ++ w) /\
      Forall (fun e => is_wait_event e = true) w /\
      ((r = Ok tt /\
        exists rs : list raw_data,
          create_and_report env fuel p existing needed h
            = (Ok (true, rs), h2 ++ w ++ raw_events (existing ++ created)) /\
          length rs = length (existing ++ created)) \/
       (r = FailJson "Timed out creating machines" /\ wait p = true /\
        create_and_report env fuel p existing needed h
          = (FailJson "Timed out creating machines", h2 ++ w)) \/
       (r = OutOfFuel /\ wait p = true /\
        create_and_report env fuel p existing needed h
          = (OutOfFuel, h2 ++ w))).
Proof.
  intros Hpos h2. unfold create_and_report. rewrite run_bind.
  destruct (Z.gtb_spec needed 0); [|lia]. rewrite run_bind.
  destruct (create_loop_run (Z.to_nat needed) p [] h) as (created & Hc & Hlen).
  simpl in Hc. fold h2 in Hc. rewrite Hc.
  exists created. split; [done|]. split; [done|]. rewrite run_bind.
  destruct (wait p).
  - destruct (wait_for_status_run fuel p created "running" h2)
      as (r & w & -> & Hw & Hr).
    exists r, w. split; [done|]. split; [done|].
    destruct Hr as [-> | [-> | ->]]; [left|right; left|right; right]; auto.
    split; [done|]. rewrite run_ret, run_bind.
    destruct (raw_machine_data_all_run (existing ++ created) (h2 ++ w))
      as (rs & -> & Hrs).
    exists rs. by rewrite <- app_assoc.
  - exists (Ok tt), []. rewrite run_ret, app_nil_r. split; [done|].
    split; [done|]. left. split; [done|]. rewrite run_ret, run_bind.
    destruct (raw_machine_data_all_run (existing ++ created) h2)
      as (rs & -> & Hrs).
    by exists rs.
Qed.

(** The two ways [create_virtual_machine] settles how many to create. *)
Lemma create_virtual_machine_counting (fuel : nat) (p : params) (e : Z)
    (h : history) :
  exact_count p = Some e -> count_tag p <> ∅ -> e <> 0 ->
  let existing := env h _ (Machines (count_tag p) (Some "running")) in
  create_virtual_machine env fuel p h
  = create_and_report env fuel p existing (e - Z.of_nat (length existing))
      (h ++ [Ev (Machines (count_tag p) (Some "running"))]).
Proof.
  intros He Hct Hne existing. unfold create_virtual_machine.
  rewrite He. unfold py_int. rewrite run_bind, run_ret, run_bind.
  unfold list_existing_machines, truthy_dict.
  rewrite bool_decide_eq_true_2 by done.
  destruct (Z.eqb_spec e 0); [done|].
  cbn [andb negb]. by rewrite !run_bind, perform_run, !run_ret.
Qed.

Lemma create_virtual_machine_fallback (fuel : nat) (p : params) (e : Z)
    (h : history) :
  exact_count p = Some e -> count_tag p = ∅ \/ e = 0 ->
  create_virtual_machine env fuel p h
  = create_and_report env fuel p [] (count p) h.
Proof.
  intros He Hor. unfold create_virtual_machine.
  rewrite He. unfold py_int. rewrite run_bind, run_ret, run_bind.
  assert (truthy_dict (count_tag p) && negb (e =? 0) = false) as ->.
  { destruct Hor as [Hct | ->].
    - unfold truthy_dict. by rewrite bool_decide_eq_false_2 by auto.
    - by rewrite andb_false_r. }
  by rewrite run_ret.
Qed.

Lemma create_virtual_machine_unset (fuel : nat) (p : params) (h : history) :
  exact_count p = None ->
  create_virtual_machine env fuel p h = (Raised TypeError, h).
Proof. intros He. unfold create_virtual_machine. by rewrite He. Qed.

(** Once the deadline is behind, the loop makes one pass and leaves. *)
Lemma wait_loop_expired (fuel : nat) (ms : list machine) (st : string)
    (d : Z) (h0 hm : history) :
  clock_advances env ->
  d <= env h0 Z TimeTime + slept hm ->
  let h := h0 ++ Ev TimeTime :: hm in
  exists (b : bool) (k : nat),
    all_status env ms st h = (Ok b, h ++ status_events (take k ms)) /\
    (ms <> [] -> (0 < k)%nat) /\
    wait_loop env (S fuel) ms st d h
    = (Ok tt, if b then h ++ status_events (take k ms)
              else h ++ status_events (take k ms) ++ [Ev TimeTime]).
Proof.
  intros Hclock Hd h. simpl.
  destruct (all_status_run ms st h) as (b & k & Hrun & _ & _ & Hk).
  exists b, k. split; [done|]. split; [done|].
  rewrite run_bind, Hrun. destruct b; simpl; [done|].
  rewrite run_bind, perform_run. unfold h. rewrite <- !app_assoc. simpl.
  pose proof (Hclock h0 (hm ++ status_events (take k ms))) as Hnow.
  rewrite slept_app, slept_status_events in Hnow.
  destruct (Z.gtb_spec d
    (env (h0 ++ Ev TimeTime :: hm ++ status_events (take k ms)) Z TimeTime));
    [lia|].
  by rewrite run_ret.
Qed.

(** A wait is the poll followed by the final check, and the final check
    alone decides between success and the timeout failure. *)
Lemma wait_for_status_final (fuel : nat) (p : params) (ms : list machine)
    (st : string) (h h_exit h_final : history) (b : bool) :
  poll_until_deadline env fuel p ms st h = (Ok tt, h_exit) ->
  all_status env ms st h_exit = (Ok b, h_final) ->
  _wait_for_status env fuel p ms st h
  = (if b then Ok tt else FailJson "Timed out creating machines", h_final).
Proof.
  intros Hpoll Hfinal. unfold _wait_for_status.
  rewrite run_bind, Hpoll, run_bind, Hfinal. by destruct b.
Qed.

Lemma delete_machines_unfold (fuel : nat) (p : params) (h : history) :
  let ms := (selected env p h).1 in
  let h1 := h ++ (selected env p h).2 in
  delete_machines env fuel p h =
  match ms with
  | [] => (Ok false, h1)
  | _ :: _ =>
      match _wait_for_status env fuel p ms "stopped" (h1 ++ stop_events ms) with
      | (Ok _, h3) => (Ok true, h3 ++ delete_events ms)
      | (FailJson msg, h3) => (FailJson msg, h3)
      | (Raised e, h3) => (Raised e, h3)
      | (OutOfFuel, h3) => (OutOfFuel, h3)
      end
  end.
Proof.
  unfold delete_machines, selected, stop_events, delete_events.
  rewrite run_bind.
  destruct (truthy_dict (tags p)); [|destruct (truthy_str (machine_id p))].
  - rewrite perform_run. cbn [fst snd].
    destruct (env h (list machine) (Machines (tags p) None)) as [|sm ms];
      [done|].
    cbn [truthy_list]. rewrite run_bind, for_each_run, run_bind.
    destruct (_wait_for_status _ _ _ _ _ _) as [[[]| | |] h3];
      first [done | by rewrite run_bind, for_each_run, run_ret].
  - rewrite run_bind, perform_run, run_ret. cbn [truthy_list fst snd].
    rewrite run_bind, for_each_run, run_bind.
    destruct (_wait_for_status _ _ _ _ _ _) as [[[]| | |] h3];
      first [done | by rewrite run_bind, for_each_run, run_ret].
  - rewrite run_ret. simpl. by rewrite app_nil_r.
Qed.

(** Lines 215-227 issue the create calls first; nothing after them is a
    listing or a create. *)
Lemma create_and_report_trace (fuel : nat) (p : params)
    (existing : list machine) (needed : Z) (h : history) :
  exists tail : history,
    snd (create_and_report env fuel p existing needed h)
      = h ++ replicate (Z.to_nat needed) (create_event p) ++ tail /\
    Forall quiet tail.
Proof.
  destruct (Z_lt_le_dec 0 needed) as [Hpos|Hle].
  - destruct (create_and_report_busy fuel p existing needed h Hpos)
      as (created & _ & _ & r & w & _ & Hw & Hcases).
    apply quiet_wait_events in Hw.
    destruct Hcases as [(_ & rs & -> & _) | [(_ & _ & ->) | (_ & _ & ->)]];
      simpl.
    + exists (w ++ raw_events (existing ++ created)).
      rewrite <- !app_assoc. split; [done|].
      apply Forall_app. split; [done|apply quiet_raw_events].
    + exists w. by rewrite <- app_assoc.
    + exists w. by rewrite <- app_assoc.
  - destruct (create_and_report_idle fuel p existing needed h Hle)
      as (rs & -> & _).
    exists (raw_events existing). simpl.
    replace (Z.to_nat needed) with 0%nat by lia. simpl.
    split; [done|apply quiet_raw_events].
Qed.

(** Every create call of a run hands over the merged tags. *)
Lemma create_virtual_machine_trace (fuel : nat) (p : params) (h : history) :
  exists new : history,
    snd (create_virtual_machine env fuel p h) = h ++ new /\
    Forall (fun e => forall tg, create_tags e = Some tg -> tg = full_tags p)
      new.
Proof.
  destruct (exact_count p) as [e|] eqn:He.
  - destruct (decide (count_tag p = ∅)) as [Hct|Hct];
      [|destruct (decide (e = 0)) as [He0|He0]].
    1, 2: rewrite (create_virtual_machine_fallback fuel p e h) by auto.
    3: rewrite (create_virtual_machine_counting fuel p e h) by auto.
    all: match goal with
         | |- context [create_and_report _ ?f ?q ?ex ?n ?hh] =>
             destruct (create_and_report_trace f q ex n hh)
               as (tail & -> & Htail)
         end.
    1, 2: eexists; split; [reflexivity|].
    3: eexists; split; [by rewrite <- app_assoc|]; simpl; constructor;
         [discriminate|].
    all: apply Forall_app; split;
      [ eapply Forall_impl; [apply create_tags_replicate|];
        intros ev Hev tg; rewrite Hev; congruence
      | by apply quiet_create_tags ].
  - rewrite create_virtual_machine_unset by done. exists [].
    by rewrite app_nil_r.
Qed.

(** With an advancing clock and enough fuel a wait always comes to its
    final check, and that check decides how it ends. *)
Lemma wait_for_status_cases (fuel : nat) (p : params) (ms : list machine)
    (st : string) (h : history) :
  clock_advances env -> enough_fuel fuel p ->
  exists (w1 : history) (b : bool) (k : nat),
    Forall (fun e => is_wait_event e = true) w1 /\
    poll_until_deadline env fuel p ms st h = (Ok tt, h ++ w1) /\
    all_status env ms st (h ++ w1)
      = (Ok b, h ++ w1 ++ status_events (take k ms)) /\
    (b = true -> take k ms = ms) /\
    (ms <> [] -> (0 < k)%nat) /\
    _wait_for_status env fuel p ms st h
    = (if b then Ok tt else FailJson "Timed out creating machines",
       h ++ w1 ++ status_events (take k ms)).
Proof.
  intros Hclock Hfuel.
  pose proof (poll_until_deadline_returns fuel p ms st h Hclock Hfuel) as Hok.
  destruct (poll_until_deadline_run fuel p ms st h)
    as (r & w & Hpoll & Hw & _).
  rewrite Hpoll in Hok. simpl in Hok. subst r.
  destruct (all_status_run ms st (h ++ Ev TimeTime :: w))
    as (b & k & Hfinal & Hk & Hb & Hk0).
  exists (Ev TimeTime :: w), b, k.
  rewrite <- app_assoc in Hfinal.
  split; [by constructor|]. split; [done|]. split; [done|].
  split; [intros Hbt; apply take_ge; rewrite (Hb Hbt); lia|].
  split; [done|].
  by apply (wait_for_status_final fuel p ms st h _ _ b Hpoll).
Qed.

(** Lines 215-227 when machines are created and [wait] is set: the poll
    on the created machines ends, and a final check that says no makes the
    run fail right there. *)
Lemma create_and_report_timeout (fuel : nat) (p : params)
    (existing : list machine) (needed : Z) (h : history) :
  clock_advances env -> enough_fuel fuel p -> wait p = true -> 0 < needed ->
  let h2 := h ++ replicate (Z.to_nat needed) (create_event p) in
  exists (created : list machine) (w1 : history),
    length created = Z.to_nat needed /\
    create_loop env (Z.to_nat needed) p (full_tags p) [] h = (Ok created, h2) /\
    Forall (fun e => is_wait_event e = true) w1 /\
    poll_until_deadline env fuel p created "running" h2 = (Ok tt, h2 ++ w1) /\
    forall h_final : history,
      all_status env created "running" (h2 ++ w1) = (Ok false, h_final) ->
      create_and_report env fuel p existing needed h
        = (FailJson "Timed out creating machines", h_final) /\
      creates h_final = creates h2.
Proof.
  intros Hclock Hfuel Hwait Hpos h2.
  destruct (create_and_report_busy fuel p existing needed h Hpos)
    as (created & Hlen & Hloop & r & w & Hrun & _ & Hcases).
  fold h2 in Hloop, Hrun, Hcases. rewrite Hwait in Hrun.
  destruct (wait_for_status_cases fuel p created "running" h2 Hclock Hfuel)
    as (w1 & b & k & Hw1 & Hpoll & Hcheck & _ & _ & Hwaitrun).
  exists created, w1. repeat (split; [done|]).
  intros h_final Hfinal. rewrite Hcheck in Hfinal.
  injection Hfinal as -> <-. rewrite Hwaitrun in Hrun.
  injection Hrun as <- Hw.
  destruct Hcases as [(? & _) | [(_ & _ & ->) | (? & _)]]; try discriminate.
  rewrite <- Hw. split; [done|].
  rewrite !creates_app, (creates_wait_events w1 Hw1).
  rewrite (creates_wait_events _ (Forall_status_events _)). lia.
Qed.

End Runs.

(** ** The fallback count (C1, C4) *)

(** C1 (failing input of the claim): with [count=3] and [exact_count]
    left unset, [create_virtual_machine] does not fall back to the absolute
    count.  [int(module.params.get('exact_count'))] is evaluated on [None]
    and raises a [TypeError] before any call is issued: no create call, no
    result list, no [changed]. *)
Theorem C1_count_with_exact_count_unset :
  let p := request ∅ ∅ 3 None true 600 in
  let run := create_virtual_machine (simulated [] (always "running")) 301 p []
  in
  count p = 3 /\ exact_count p = None /\
  run = (Raised TypeError, []) /\
  creates (snd run) = 0%nat.
Proof.
  intros p run. split; [done|]. split; [done|].
  assert (run = (Raised TypeError, [])) as ->; [|done].
  by apply create_virtual_machine_unset.
Qed.

(** What the else-branch does once it is reached (here with [exact_count]
    supplied as [0], or with an empty [count_tag]): exactly [count] create
    calls, a result list of that length, [changed = true]. *)
Lemma fallback_count_creates (env : provider) (fuel : nat) (p : params)
    (e : Z) (h : history) :
  exact_count p = Some e -> count_tag p = ∅ \/ e = 0 ->
  wait p = false -> 0 < count p ->
  exists (created : list machine) (rs : list raw_data),
    create_virtual_machine env fuel p h
    = (Ok (true, rs),
       h ++ replicate (Z.to_nat (count p)) (create_event p)
         ++ raw_events created) /\
    length created = Z.to_nat (count p) /\
    length rs = Z.to_nat (count p).
Proof.
  intros He Hor Hwait Hpos.
  rewrite (create_virtual_machine_fallback env fuel p e h He Hor).
  destruct (create_and_report_busy env fuel p [] (count p) h Hpos)
    as (created & Hlen & _ & r & w & Hw & _ & Hcases).
  rewrite Hwait in Hw, Hcases.
  destruct Hcases as [(_ & rs & Hrun & Hrs) | [(_ & ? & _) | (_ & ? & _)]];
    try done.
  injection Hw as _ Hw'.
  assert (w = []) as ->.
  { eapply app_inv_head. rewrite app_nil_r. symmetry. exact Hw'. }
  exists created, rs. rewrite Hrun. simpl in *.
  by rewrite <- app_assoc, Hrs, Hlen.
Qed.

Example fallback_count_three :
  exists rs : list raw_data,
    fst (create_virtual_machine (simulated [] (always "running")) 301
           (request ∅ ∅ 3 (Some 0) false 600) [])
    = Ok (true, rs) /\ length rs = 3%nat.
Proof. eexists. split; [vm_compute; reflexivity|reflexivity]. Qed.

(** The only failure lines 215-227 can report is the wait timeout. *)
Lemma create_and_report_failure (env : provider) (fuel : nat) (p : params)
    (existing : list machine) (needed : Z) (h : history) (msg : string) :
  fst (create_and_report env fuel p existing needed h) = FailJson msg ->
  msg = "Timed out creating machines" /\ wait p = true.
Proof.
  destruct (Z_lt_le_dec 0 needed) as [Hpos|Hle].
  - destruct (create_and_report_busy env fuel p existing needed h Hpos)
      as (created & _ & _ & r & w & _ & _ & Hcases).
    destruct Hcases as [(_ & rs & -> & _) | [(_ & ? & ->) | (_ & _ & ->)]];
      simpl; try discriminate.
    intros [= <-]. done.
  - destruct (create_and_report_idle env fuel p existing needed h Hle)
      as (rs & -> & _).
    discriminate.
Qed.

(** Without waiting, lines 215-227 succeed and report every machine. *)
Lemma create_and_report_no_wait (env : provider) (fuel : nat) (p : params)
    (existing : list machine) (needed : Z) (h : history) :
  wait p = false ->
  exists rs : list raw_data,
    fst (create_and_report env fuel p existing needed h)
      = Ok (needed >? 0, rs) /\
    length rs = (length existing + Z.to_nat needed)%nat.
Proof.
  intros Hwait. destruct (Z.gtb_spec needed 0) as [Hpos|Hle].
  - destruct (create_and_report_busy env fuel p existing needed h)
      as (created & Hlen & _ & r & w & _ & _ & Hcases); [lia|].
    destruct Hcases as [(_ & rs & -> & Hrs) | [(_ & ? & _) | (_ & ? & _)]];
      try congruence.
    exists rs. split; [done|]. by rewrite Hrs, length_app, Hlen.
  - destruct (create_and_report_idle env fuel p existing needed h Hle)
      as (rs & -> & Hrs).
    exists rs. split; [done|]. rewrite Hrs. lia.
Qed.

(** C4 (counterexample): with [exact_count=5] and an empty [count_tag]
    the run does not fail: it creates [count = 1] machine and reports
    [changed = true]. *)
Lemma C4_counterexample :
  let p := request ∅ ∅ 1 (Some 5) false 600 in
  let run := create_virtual_machine (simulated [] (always "running")) 301 p []
  in
  exact_count p = Some 5 /\ count_tag p = ∅ /\
  run = (Ok (true, [RawData "new-0"]),
         [create_event p; Ev (RawMachineData "new-0")]) /\
  ~ (exists msg : string, fst run = FailJson msg).
Proof.
  intros p run. split; [done|]. split; [done|].
  assert (run = (Ok (true, [RawData "new-0"]),
                 [create_event p; Ev (RawMachineData "new-0")])) as ->
    by (vm_compute; reflexivity).
  split; [done|]. intros [msg Hmsg]. discriminate Hmsg.
Qed.

(** C4 (as amended): when [exact_count] is set but [count_tag] is empty,
    [create_virtual_machine] never reports the "Must have tags" failure:
    the listing is skipped altogether and the run goes on with the
    fallback count.  It issues [count] create calls (none when
    [count <= 0]) and afterwards neither a listing nor a create; without
    [wait] it succeeds with one record per created machine. *)
Theorem C4_empty_count_tag_falls_back (env : provider) (fuel : nat)
    (p : params) (e : Z) (h : history) :
  exact_count p = Some e -> count_tag p = ∅ ->
  let run := create_virtual_machine env fuel p h in
  fst run
    <> FailJson "Must have tags to list existing machines for deletion/counting"
  /\ (exists tail : history,
        snd run = h ++ replicate (Z.to_nat (count p)) (create_event p) ++ tail
        /\ Forall quiet tail)
  /\ (wait p = false ->
      exists rs : list raw_data,
        fst run = Ok (count p >? 0, rs) /\
        length rs = Z.to_nat (count p)).
Proof.
  intros He Hct run. unfold run.
  rewrite (create_virtual_machine_fallback env fuel p e h He) by auto.
  split; [|split].
  - intros Hfail. by apply create_and_report_failure in Hfail as [? _].
  - apply create_and_report_trace.
  - intros Hwait.
    destruct (create_and_report_no_wait env fuel p [] (count p) h Hwait)
      as (rs & Hrun & Hrs).
    by exists rs.
Qed.

Lemma C4_empty_count_tag_falls_back_witness :
  let p := request ∅ ∅ 2 (Some 5) false 600 in
  let run := create_virtual_machine (simulated [] (always "running")) 301 p []
  in
  fst run
    <> FailJson "Must have tags to list existing machines for deletion/counting"
  /\ (exists tail : history,
        snd run = [] ++ replicate (Z.to_nat (count p)) (create_event p) ++ tail
        /\ Forall quiet tail)
  /\ (wait p = false ->
      exists rs : list raw_data,
        fst run = Ok (count p >? 0, rs) /\
        length rs = Z.to_nat (count p)).
Proof.
  intros p.
  apply (C4_empty_count_tag_falls_back (simulated [] (always "running")) 301
           p 5 []); reflexivity.
Defined.

(** ** Exact counts (C2, C3) *)

(** When a non-zero [exact_count] is already met by the machines the
    listing returns, nothing is created and [changed] is false. *)
Lemma exact_count_met_creates_nothing (env : provider) (fuel : nat)
    (p : params) (e : Z) (h : history) :
  exact_count p = Some e -> count_tag p <> ∅ -> e <> 0 ->
  let existing := env h _ (Machines (count_tag p) (Some "running")) in
  e <= Z.of_nat (length existing) ->
  exists rs : list raw_data,
    create_virtual_machine env fuel p h
    = (Ok (false, rs),
       h ++ [Ev (Machines (count_tag p) (Some "running"))]
         ++ raw_events existing) /\
    length rs = length existing.
Proof.
  intros He Hct Hne existing Hmet.
  rewrite (create_virtual_machine_counting env fuel p e h He Hct Hne).
  fold existing.
  destruct (create_and_report_idle env fuel p existing
              (e - Z.of_nat (length existing))
              (h ++ [Ev (Machines (count_tag p) (Some "running"))]))
    as (rs & -> & Hrs); [lia|].
  exists rs. by rewrite <- app_assoc.
Qed.

(** C2 (failing input of the claim): [exact_count=0] with a non-empty
    [count_tag] and two matching running machines (so [k = 2 >= 0]).  The
    test [count_tag and exact_count] treats [0] as absent, the listing is
    skipped, and the fallback [count = 1] is used: one create call is
    issued and [changed] is true. *)
Theorem C2_exact_count_zero_still_creates :
  let dc := simulated [Machine "web-1"; Machine "web-2"] (always "running") in
  let p := request ∅ role_web 1 (Some 0) false 600 in
  let run := create_virtual_machine dc 301 p [] in
  exact_count p = Some 0 /\
  length (dc [] _ (Machines (count_tag p) (Some "running"))) = 2%nat /\
  run = (Ok (true, [RawData "new-0"]),
         [create_event p; Ev (RawMachineData "new-0")]) /\
  creates (snd run) = 1%nat.
Proof.
  intros dc p run. split; [done|]. split; [done|].
  assert (run = (Ok (true, [RawData "new-0"]),
                 [create_event p; Ev (RawMachineData "new-0")])) as ->
    by (vm_compute; reflexivity).
  split; [done|]. vm_compute. reflexivity.
Qed.

(** C3: when [count_tag] is non-empty, [exact_count] is set and exceeds
    the number of machines returned by the listing filtered by [count_tag]
    and state ['running'], the run issues that listing first, then exactly
    [exact_count - len(existing)] create calls, and no create call after
    them: the number of create calls of the run is exactly the shortfall. *)
Theorem C3_shortfall_created (env : provider) (fuel : nat) (p : params)
    (e : Z) (h : history) :
  exact_count p = Some e -> count_tag p <> ∅ ->
  let listing := Machines (count_tag p) (Some "running") in
  let existing := env h _ listing in
  Z.of_nat (length existing) < e ->
  let h' := snd (create_virtual_machine env fuel p h) in
  (exists tail : history,
     h' = h ++ [Ev listing]
            ++ replicate (Z.to_nat (e - Z.of_nat (length existing)))
                 (create_event p)
            ++ tail /\
     Forall quiet tail) /\
  Z.of_nat (creates h') = Z.of_nat (creates h) + (e - Z.of_nat (length existing)).
Proof.
  intros He Hct listing existing Hlt h'. unfold h'.
  rewrite (create_virtual_machine_counting env fuel p e h He Hct) by lia.
  fold listing existing.
  destruct (create_and_report_trace env fuel p existing
              (e - Z.of_nat (length existing)) (h ++ [Ev listing]))
    as (tail & -> & Htail).
  split.
  - exists tail. by rewrite <- app_assoc.
  - rewrite !creates_app, creates_replicate, (quiet_creates tail Htail).
    change (creates [Ev listing]) with 0%nat. lia.
Qed.

Lemma C3_shortfall_created_witness :
  let dc := simulated [Machine "web-1"; Machine "web-2"] (always "running") in
  let p := request ∅ role_web 1 (Some 5) true 600 in
  let listing := Machines (count_tag p) (Some "running") in
  let h' := snd (create_virtual_machine dc 301 p []) in
  (exists tail : history,
     h' = [] ++ [Ev listing]
            ++ replicate (Z.to_nat (5 - Z.of_nat (length (dc [] _ listing))))
                 (create_event p)
            ++ tail /\
     Forall quiet tail) /\
  Z.of_nat (creates h')
  = Z.of_nat (creates []) + (5 - Z.of_nat (length (dc [] _ listing))).
Proof.
  intros dc p listing.
  apply (C3_shortfall_created dc 301 p 5 []).
  - reflexivity.
  - apply (bool_decide_unpack _). vm_compute. exact I.
  - simpl. lia.
Defined.

(** ** Tags of created machines (C5, C9) *)


(** A run that does create: both machines carry [role=web] next to the
    base tag. *)
Example created_carry_count_tag_run :
  let p := request {[ "env" := "prod" ]} role_web 1 (Some 2) false 600 in
  let h' := snd (create_virtual_machine (simulated [] (always "running"))
                   301 p []) in
  omap create_tags h'
  = [ {[ "env" := "prod"; "role" := "web" ]};
      {[ "env" := "prod"; "role" := "web" ]} ].
Proof. vm_compute. reflexivity. Qed.

(** On a data center that filters listings by tags, the machines a run
    creates are selected by [count_tag]. *)
Lemma tags_match_subseteq (selector tg : tagset) :
  selector ⊆ tg -> tags_match selector tg = true.
Proof.
  intros Hsub. apply bool_decide_eq_true_2. intros k v Hk.
  by apply (lookup_weaken selector).
Qed.

Lemma created_match_count_tag (p : params) :
  tags_match (count_tag p) (full_tags p) = true.
Proof. apply tags_match_subseteq, count_tag_subseteq_full_tags. Qed.

(** Two runs in a row with [exact_count=2]: the first creates two
    machines, the second finds them through [count_tag] and creates none. *)
Example second_run_counts_first :
  let p := request {[ "env" := "prod" ]} role_web 1 (Some 2) false 600 in
  let h1 := snd (create_virtual_machine tagged 301 p []) in
  let run2 := create_virtual_machine tagged 301 p h1 in
  creates h1 = 2%nat /\
  tagged h1 _ (Machines (count_tag p) (Some "running"))
    = [Machine "new-0"; Machine "new-1"] /\
  fst run2 = Ok (false, [RawData "new-0"; RawData "new-1"]) /\
  creates (snd run2) = 2%nat.
Proof. vm_compute. repeat split. Qed.

(** C9: when [tags] and [count_tag] bind the same key to different
    values, the merged tags bind it to the value of [count_tag], and so
    does the tag set of every create call of the run. *)
Theorem C9_count_tag_wins (env : provider) (fuel : nat) (p : params)
    (h : history) (k v1 v2 : string) :
  tags p !! k = Some v1 -> count_tag p !! k = Some v2 -> v1 <> v2 ->
  full_tags p !! k = Some v2 /\
  exists new : history,
    snd (create_virtual_machine env fuel p h) = h ++ new /\
    Forall (fun ev => forall tg : tagset,
              create_tags ev = Some tg ->
              tg !! k = Some v2 /\ tg !! k <> Some v1)
      new.
Proof.
  intros _ Hc Hne.
  pose proof (full_tags_lookup_count_tag p k v2 Hc) as Hfull.
  split; [done|].
  destruct (create_virtual_machine_trace env fuel p h) as (new & Hrun & Hnew).
  exists new. split; [done|].
  eapply Forall_impl; [exact Hnew|]. intros ev Hev tg Htg.
  rewrite (Hev tg Htg), Hfull. split; [done|congruence].
Qed.

Lemma C9_count_tag_wins_witness :
  let p := request {[ "role" := "db"; "env" := "prod" ]} role_web 2 (Some 0)
             false 600 in
  full_tags p !! "role" = Some "web" /\
  exists new : history,
    snd (create_virtual_machine (simulated [] (always "running")) 301 p [])
      = [] ++ new /\
    Forall (fun ev => forall tg : tagset,
              create_tags ev = Some tg ->
              tg !! "role" = Some "web" /\ tg !! "role" <> Some "db")
      new.
Proof.
  intros p.
  apply (C9_count_tag_wins (simulated [] (always "running")) 301 p []
           "role" "db" "web").
  - vm_compute. reflexivity.
  - vm_compute. reflexivity.
  - discriminate.
Defined.

(** ** Deleting (C7, C8) *)

(** C8: with no tags and no [machine_id], [delete_machines] selects
    nothing, issues no call at all (the trace is unchanged) and returns
    [changed = False]. *)
Theorem C8_nothing_selected (env : provider) (fuel : nat) (p : params)
    (h : history) :
  tags p = ∅ -> machine_id p = None ->
  delete_machines env fuel p h = (Ok false, h).
Proof.
  intros Ht Hm. rewrite delete_machines_unfold. unfold selected.
  rewrite Ht, Hm. unfold truthy_dict.
  rewrite bool_decide_eq_false_2 by auto. simpl. by rewrite app_nil_r.
Qed.

Lemma C8_nothing_selected_witness :
  delete_machines (simulated [Machine "web-1"] (always "running")) 301
    (removal ∅ None 600) []
  = (Ok false, []).
Proof.
  apply (C8_nothing_selected (simulated [Machine "web-1"] (always "running"))
           301 (removal ∅ None 600) []); reflexivity.
Defined.

(** A call that occurs in [A ++ D] and cannot occur in [A] occurs in [D]. *)
Lemma split_in_suffix (P : event -> Prop) (A D pre post : history)
    (e : event) :
  A ++ D = pre ++ e :: post -> Forall (fun x => ~ P x) A -> P e ->
  exists pre' : history, pre = A ++ pre' /\ D = pre' ++ e :: post.
Proof.
  revert pre. induction A as [|a A IH]; intros pre Heq HA He.
  - by exists pre.
  - inversion HA as [|? ? Ha HA']; subst.
    destruct pre as [|x pre]; simpl in Heq.
    + injection Heq as -> _. done.
    + injection Heq as -> Heq.
      destruct (IH pre Heq HA' He) as (pre' & -> & HD). by exists pre'.
Qed.

Lemma omap_none (f : event -> option machine) (l : history) :
  Forall (fun x => f x = None) l -> omap f l = [].
Proof. induction 1 as [|x l Hx Hl IH]; simpl; [done|]. by rewrite Hx. Qed.

Lemma omap_stopped_stop_events (ms : list machine) :
  omap stopped_machine (stop_events ms) = ms.
Proof.
  unfold stop_events. induction ms as [|sm ms IH]; simpl; [done|].
  f_equal. exact IH.
Qed.

Lemma wait_events_untouched (w : history) :
  Forall (fun e => is_wait_event e = true) w ->
  Forall (fun x => stopped_machine x = None) w /\
  Forall (fun x => ~ is_Some (deleted_machine x)) w.
Proof.
  intros Hw. split; (eapply Forall_impl; [exact Hw|]); intros [R c] Hc;
    destruct c; try discriminate Hc; simpl; try done; by intros [? ?].
Qed.

Lemma selected_untouched (env : provider) (p : params) (h : history) :
  Forall (fun x => stopped_machine x = None) (selected env p h).2 /\
  Forall (fun x => ~ is_Some (deleted_machine x)) (selected env p h).2.
Proof.
  unfold selected.
  destruct (truthy_dict (tags p)); [|destruct (truthy_str (machine_id p))];
    simpl; split; repeat constructor; by intros [? ?].
Qed.

(** C7: [delete_machines] issues, after the call that selects the
    machines, a stop call on every selected machine, then the calls of the
    wait for ['stopped'], and only then the delete calls, one per selected
    machine; they are issued only when the final check of the wait found
    every selected machine ['stopped'], otherwise the run fails with the
    timeout message and deletes nothing.  Hence whenever a delete call on a
    machine is issued, the stop calls on all selected machines, that one
    included, have been issued before it. *)
Theorem C7_stop_before_delete (env : provider) (fuel : nat) (p : params)
    (h : history) :
  clock_advances env -> enough_fuel fuel p ->
  let ms := (selected env p h).1 in
  let sel := (selected env p h).2 in
  let h_stopped := h ++ sel ++ stop_events ms in
  let run := delete_machines env fuel p h in
  exists w dels : history,
    snd run = h_stopped ++ w ++ dels /\
    Forall (fun e => is_wait_event e = true) w /\
    ((dels = delete_events ms /\ fst run = Ok (truthy_list ms) /\
      (ms <> [] ->
       exists w0 : history,
         w = w0 ++ status_events ms /\
         all_status env ms "stopped" (h_stopped ++ w0)
           = (Ok true, h_stopped ++ w)))
     \/ (dels = [] /\ ms <> [] /\
         fst run = FailJson "Timed out creating machines")) /\
    (forall (pre post : history) (e : event) (sm : machine),
        sel ++ stop_events ms ++ w ++ dels = pre ++ e :: post ->
        deleted_machine e = Some sm ->
        sm ∈ ms /\ omap stopped_machine pre = ms).
Proof.
  intros Hclock Hfuel ms sel h_stopped run.
  assert (exists w dels : history,
    snd run = h_stopped ++ w ++ dels /\
    Forall (fun e => is_wait_event e = true) w /\
    ((dels = delete_events ms /\ fst run = Ok (truthy_list ms) /\
      (ms <> [] ->
       exists w0 : history,
         w = w0 ++ status_events ms /\
         all_status env ms "stopped" (h_stopped ++ w0)
           = (Ok true, h_stopped ++ w)))
     \/ (dels = [] /\ ms <> [] /\
         fst run = FailJson "Timed out creating machines")))
    as (w & dels & Hrun & Hw & Hcases).
  { unfold run. rewrite delete_machines_unfold.
    fold ms sel. unfold h_stopped.
    destruct ms as [|sm ms'] eqn:Hms.
    - exists [], []. simpl. rewrite !app_nil_r. split; [done|].
      split; [done|]. left. by repeat split.
    - rewrite <- Hms.
      destruct (wait_for_status_cases env fuel p ms "stopped"
                  ((h ++ sel) ++ stop_events ms) Hclock Hfuel)
        as (w1 & b & k & Hw1 & _ & Hcheck & Hb & _ & ->).
      rewrite <- !app_assoc in *.
      destruct b.
      + rewrite (Hb eq_refl) in *.
        exists (w1 ++ status_events ms), (delete_events ms). simpl.
        rewrite <- !app_assoc. split; [done|].
        split; [apply Forall_app; split;
                  [done|apply Forall_status_events]|].
        left. split; [done|]. split; [by rewrite Hms|].
        intros _. exists w1. by rewrite <- !app_assoc.
      + exists (w1 ++ status_events (take k ms)), []. simpl.
        rewrite <- !app_assoc, app_nil_r. split; [done|].
        split; [apply Forall_app; split;
                  [done|apply Forall_status_events]|].
        right. split; [done|]. split; [by rewrite Hms|done]. }
  exists w, dels. split; [done|]. split; [done|]. split; [done|].
  intros pre post e sm Heq Hdel.
  destruct (selected_untouched env p h) as [Hsel_stop Hsel_del].
  destruct (wait_events_untouched w Hw) as [Hw_stop Hw_del].
  fold sel in Hsel_stop, Hsel_del.
  rewrite !app_assoc in Heq.
  apply (split_in_suffix (fun x => is_Some (deleted_machine x))) in Heq
    as (pre' & -> & Hdels).
  - assert (dels = delete_events ms) as Hd.
    { destruct Hcases as [(Hd & _) | (Hd & _)]; [done|].
      rewrite Hd in Hdels. by destruct pre'. }
    rewrite Hd in Hdels. split.
    + assert (e ∈ delete_events ms) as Hin
        by (rewrite Hdels; apply elem_of_app; right; by left).
      apply list_elem_of_fmap in Hin as (sm' & -> & Hin).
      simpl in Hdel. by injection Hdel as <-.
    + rewrite !omap_app, omap_stopped_stop_events.
      rewrite (omap_none _ sel Hsel_stop), (omap_none _ w Hw_stop).
      rewrite (omap_none _ pre'); [simpl; by rewrite !app_nil_r|].
      apply Forall_forall. intros x Hx.
      assert (x ∈ delete_events ms) as Hin
        by (rewrite Hdels; apply elem_of_app; by left).
      by apply list_elem_of_fmap in Hin as (sm' & -> & _).
  - repeat (apply Forall_app; split); try done.
    unfold stop_events. apply Forall_fmap, Forall_forall.
    intros x _. simpl. by intros [? ?].
  - by rewrite Hdel.
Qed.

Lemma C7_stop_before_delete_witness :
  let env := simulated [Machine "a"; Machine "b"] (always "stopped") in
  let p := removal role_web None 600 in
  let ms := (selected env p []).1 in
  let sel := (selected env p []).2 in
  let h_stopped := [] ++ sel ++ stop_events ms in
  let run := delete_machines env 301 p [] in
  exists w dels : history,
    snd run = h_stopped ++ w ++ dels /\
    Forall (fun e => is_wait_event e = true) w /\
    ((dels = delete_events ms /\ fst run = Ok (truthy_list ms) /\
      (ms <> [] ->
       exists w0 : history,
         w = w0 ++ status_events ms /\
         all_status env ms "stopped" (h_stopped ++ w0)
           = (Ok true, h_stopped ++ w)))
     \/ (dels = [] /\ ms <> [] /\
         fst run = FailJson "Timed out creating machines")) /\
    (forall (pre post : history) (e : event) (sm : machine),
        sel ++ stop_events ms ++ w ++ dels = pre ++ e :: post ->
        deleted_machine e = Some sm ->
        sm ∈ ms /\ omap stopped_machine pre = ms).
Proof.
  intros env p.
  apply (C7_stop_before_delete env 301 p []).
  - apply simulated_clock.
  - split; [lia|]. simpl. lia.
Defined.

(** Two runs of the module's own examples, evaluated. *)
Example delete_by_tags_run :
  let a := Machine "a" in
  let b := Machine "b" in
  delete_machines (simulated [a; b] (always "stopped")) 301
    (removal role_web None 600) []
  = (Ok true,
     [Ev (Machines role_web None); Ev (Stop a); Ev (Stop b); Ev TimeTime;
      Ev (Status a); Ev (Status b); Ev (Status a); Ev (Status b);
      Ev (Delete a); Ev (Delete b)]).
Proof. vm_compute. reflexivity. Qed.

Example delete_by_id_run :
  let abc := Machine "abc" in
  main (simulated [] (always "stopped")) true 301
    (removal ∅ (Some "abc") 600) []
  = (Ok (true, []),
     [Ev (GetMachine "abc"); Ev (Stop abc); Ev TimeTime;
      Ev (Status abc); Ev (Status abc); Ev (Delete abc)]).
Proof. vm_compute. reflexivity. Qed.

(** ** The wait timeout (C6, C10) *)

(** C6: take a run of [create_virtual_machine] with [wait] set in which
    machines were created.  All create calls come first ([pre]); the poll
    on the created machines then runs until all report ['running'] or the
    deadline has passed ([h_exit]).  The machines are then asked once
    more, in order.  Either one of them answers something else than
    ['running']: then the run ends right there with
    [fail_json(msg="Timed out creating machines")].  Or every one of them
    answers ['running']: only then does the run succeed.  In both cases no
    create call follows the ones in [pre]. *)
Theorem C6_timeout_fails (env : provider) (fuel : nat) (p : params)
    (h : history) :
  clock_advances env -> enough_fuel fuel p -> wait p = true ->
  let run := create_virtual_machine env fuel p h in
  (creates h < creates (snd run))%nat ->
  exists (pre0 : history) (created : list machine) (w1 : history),
    let pre := pre0 ++ replicate (length created) (create_event p) in
    let h_exit := h ++ pre ++ w1 in
    creates pre0 = 0%nat /\ created <> [] /\
    create_loop env (length created) p (full_tags p) [] (h ++ pre0)
      = (Ok created, h ++ pre) /\
    Forall (fun e => is_wait_event e = true) w1 /\
    poll_until_deadline env fuel p created "running" (h ++ pre)
      = (Ok tt, h_exit) /\
    creates (snd run) = creates (h ++ pre) /\
    ((exists (i : nat) (sm : machine),
        created !! i = Some sm /\
        env (h_exit ++ status_events (take i created)) string (Status sm)
          <> "running" /\
        run = (FailJson "Timed out creating machines",
               h_exit ++ status_events (take (S i) created)))
     \/
     ((forall (i : nat) (sm : machine),
          created !! i = Some sm ->
          env (h_exit ++ status_events (take i created)) string (Status sm)
          = "running") /\
      exists (rs : list raw_data) (tail : history),
        run = (Ok (true, rs), h_exit ++ status_events created ++ tail))).
Proof.
  intros Hclock Hfuel Hwait run Hcreated.
  assert (exists (pre0 : history) (existing : list machine) (needed : Z),
            creates pre0 = 0%nat /\
            run = create_and_report env fuel p existing needed (h ++ pre0))
    as (pre0 & existing & needed & Hpre0 & Hrun).
  { unfold run. destruct (exact_count p) as [e|] eqn:He.
    - destruct (decide (count_tag p = ∅)) as [Hct|Hct];
        [|destruct (decide (e = 0)) as [He0|He0]].
      + exists [], [], (count p). rewrite app_nil_r. split; [done|].
        apply (create_virtual_machine_fallback env fuel p e h He). auto.
      + exists [], [], (count p). rewrite app_nil_r. split; [done|].
        apply (create_virtual_machine_fallback env fuel p e h He). auto.
      + eexists [_], _, _. split; [|by apply create_virtual_machine_counting].
        reflexivity.
    - exfalso. unfold run in Hcreated.
      rewrite create_virtual_machine_unset in Hcreated by done.
      simpl in Hcreated. lia. }
  assert (0 < needed) as Hpos.
  { destruct (Z_lt_le_dec 0 needed) as [|Hle]; [done|exfalso].
    destruct (create_and_report_idle env fuel p existing needed (h ++ pre0) Hle)
      as (rs & Hidle & _).
    rewrite Hrun, Hidle in Hcreated. simpl in Hcreated.
    rewrite !creates_app, Hpre0, creates_raw_events in Hcreated. lia. }
  clearbody run. subst run.
  destruct (create_and_report_busy env fuel p existing needed (h ++ pre0) Hpos)
    as (created & Hlen & Hloop & r & w & Hwrun & Hw & Hcases).
  rewrite Hwait in Hwrun.
  set (h2 := (h ++ pre0) ++ replicate (Z.to_nat needed) (create_event p)) in *.
  destruct (wait_for_status_cases env fuel p created "running" h2
              Hclock Hfuel)
    as (w1 & b & k & Hw1 & Hpoll & Hcheck & Hb & _ & Hwaitrun).
  rewrite Hwaitrun in Hwrun. injection Hwrun as Hr Hweq.
  apply app_inv_head in Hweq.
  rewrite app_assoc in Hcheck.
  pose proof (all_status_verdict env created "running" _ _ b Hcheck)
    as Hverdict.
  assert (h ++ (pre0 ++ replicate (Z.to_nat needed) (create_event p)) ++ w1
          = h2 ++ w1) as Hexit by (unfold h2; by rewrite <- !app_assoc).
  assert (h ++ pre0 ++ replicate (Z.to_nat needed) (create_event p) = h2)
    as Hpre by (unfold h2; by rewrite <- !app_assoc).
  exists pre0, created, w1. cbv zeta. rewrite Hlen, Hexit, Hpre.
  split; [done|]. split; [intros ->; simpl in Hlen; lia|].
  split; [exact Hloop|]. split; [done|]. split; [done|].
  assert (creates (h2 ++ w) = creates h2) as Hquiet.
  { rewrite creates_app, (creates_wait_events w Hw). lia. }
  destruct b.
  - destruct Hcases as [(_ & rs & Hres & _) | [(Hr' & _) | (Hr' & _)]];
      [|rewrite <- Hr in Hr'; discriminate..].
    rewrite Hres. simpl. split.
    { rewrite app_assoc, creates_app, creates_raw_events, Hquiet. lia. }
    right. split; [exact Hverdict|].
    exists rs, (raw_events (existing ++ created)).
    rewrite <- Hweq, (Hb eq_refl). by rewrite <- !app_assoc.
  - destruct Hcases as [(Hr' & _) | [(_ & _ & Hres) | (Hr' & _)]];
      [rewrite <- Hr in Hr'; discriminate| |rewrite <- Hr in Hr'; discriminate].
    rewrite Hres. simpl. split; [done|]. left.
    destruct Hverdict as (i & sm & Hi & Hans & Heq).
    exists i, sm. split; [done|]. split; [done|].
    apply app_inv_head in Heq.
    by rewrite <- Hweq, Heq, <- !app_assoc.
Qed.

Lemma C6_timeout_fails_witness :
  let env := simulated [] (always "provisioning") in
  let p := request ∅ ∅ 2 (Some 0) true 4 in
  let run := create_virtual_machine env 3 p [] in
  wait p = true /\ (creates [] < creates (snd run))%nat /\
  fst run = FailJson "Timed out creating machines" /\
  exists (pre : history) (created : list machine) (i : nat) (sm : machine),
    created !! i = Some sm /\
    env (pre ++ status_events (take i created)) string (Status sm)
      <> "running" /\
    snd run = pre ++ status_events (take (S i) created) /\
    creates (snd run) = creates pre.
Proof.
  intros env p run.
  assert (clock_advances env) as Hclock by apply simulated_clock.
  assert (enough_fuel 3 p) as Hfuel by (split; [lia|simpl; lia]).
  assert ((creates [] < creates (snd run))%nat) as Hcreated
    by (vm_compute; lia).
  split; [reflexivity|]. split; [exact Hcreated|].
  destruct (C6_timeout_fails env 3 p [] Hclock Hfuel eq_refl Hcreated)
    as (pre0 & created & w1 & _ & Hne & _ & Hw1 & _ & Hcr & Hcases).
  destruct Hcases as [(i & sm & Hi & Hans & Hrun) | (Hall & _)].
  - fold run in Hrun. rewrite Hrun. split; [reflexivity|].
    eexists _, created, i, sm. split; [exact Hi|]. split; [exact Hans|].
    split; [reflexivity|].
    fold run in Hcr. rewrite Hrun in Hcr. simpl snd in *.
    rewrite Hcr, !creates_app, (creates_wait_events w1 Hw1). simpl. lia.
  - exfalso. destruct created as [|sm created]; [done|].
    specialize (Hall 0%nat sm eq_refl). discriminate Hall.
Defined.

(** The run of the witness, evaluated: two create calls, a poll that
    sleeps twice, and the failure. *)
Example timeout_run :
  let env := simulated [] (always "provisioning") in
  let p := request ∅ ∅ 2 (Some 0) true 4 in
  let sm := Machine "new-0" in
  create_virtual_machine env 3 p []
  = (FailJson "Timed out creating machines",
     [create_event p; create_event p; Ev TimeTime;
      Ev (Status sm); Ev TimeTime; Ev (TimeSleep 2);
      Ev (Status sm); Ev TimeTime; Ev (TimeSleep 2);
      Ev (Status sm); Ev TimeTime;
      Ev (Status sm)]).
Proof. vm_compute. reflexivity. Qed.

(** Through [main]: after the failure nothing else runs. *)
Example timeout_run_main :
  let env := simulated [] (always "provisioning") in
  let p := request ∅ ∅ 2 (Some 0) true 4 in
  main env true 3 p [] = create_virtual_machine env 3 p [].
Proof. vm_compute. reflexivity. Qed.

(** C10 (counterexample): two tracked machines, the first one stuck in
    ['provisioning'], [wait_timeout = 0].  Each pass of [all(...)] stops at
    the first machine; the status of the second one is never asked for. *)
Lemma C10_counterexample :
  let a := Machine "a" in
  let b := Machine "b" in
  let p := request ∅ ∅ 1 None true 0 in
  let run := _wait_for_status (simulated [] (all_but a)) 1 p [a; b] "running" []
  in
  wait_timeout p <= 0 /\ b ∈ [a; b] /\
  run = (FailJson "Timed out creating machines",
         [Ev TimeTime; Ev (Status a); Ev TimeTime; Ev (Status a)]) /\
  b ∉ queried (snd run).
Proof.
  intros a b p run. split; [done|]. split; [set_solver|].
  assert (run = (FailJson "Timed out creating machines",
                 [Ev TimeTime; Ev (Status a); Ev TimeTime; Ev (Status a)]))
    as -> by (vm_compute; reflexivity).
  split; [done|]. simpl. intros Hin.
  repeat (apply elem_of_cons in Hin as [Hin|Hin]; [discriminate Hin|]).
  by apply elem_of_nil in Hin.
Qed.

(** C10 (as amended): under an advancing clock and with fuel for the
    timeout, a wait always reaches its final check, made after the polling
    loop has ended, and it fails with the timeout message exactly when that
    check says no, that is, when it finds a tracked machine that answers
    with another status than the target.  A check asks the machines in
    order and stops at the first such machine ([take k]).  With
    [wait_timeout <= 0] the loop still makes one such pass, without
    sleeping, before the final check.  When every machine reports the
    target status whenever asked, each pass asks every machine and the wait
    succeeds. *)
Theorem C10_wait_outcome (env : provider) (fuel : nat) (p : params)
    (ms : list machine) (st : string) (h : history) :
  clock_advances env -> enough_fuel fuel p ->
  exists (w1 : history) (b : bool) (k : nat),
    poll_until_deadline env fuel p ms st h = (Ok tt, h ++ w1) /\
    all_status env ms st (h ++ w1)
      = (Ok b, h ++ w1 ++ status_events (take k ms)) /\
    (ms <> [] -> (0 < k)%nat) /\
    (if b then
       take k ms = ms /\
       forall (i : nat) (sm : machine),
         ms !! i = Some sm ->
         env (h ++ w1 ++ status_events (take i ms)) string (Status sm) = st
     else
       exists (i : nat) (sm : machine),
         ms !! i = Some sm /\ take k ms = take (S i) ms /\
         env (h ++ w1 ++ status_events (take i ms)) string (Status sm)
           <> st) /\
    _wait_for_status env fuel p ms st h
      = (if b then Ok tt else FailJson "Timed out creating machines",
         h ++ w1 ++ status_events (take k ms)) /\
    (fst (_wait_for_status env fuel p ms st h)
       = FailJson "Timed out creating machines" <-> b = false) /\
    (wait_timeout p <= 0 ->
     exists (b0 : bool) (k0 : nat),
       (ms <> [] -> (0 < k0)%nat) /\
       w1 = Ev TimeTime :: status_events (take k0 ms)
              ++ (if b0 then [] else [Ev TimeTime])) /\
    ((forall (h' : history) (sm : machine),
         sm ∈ ms -> env h' string (Status sm) = st) ->
     _wait_for_status env fuel p ms st h
       = (Ok tt, h ++ Ev TimeTime :: status_events ms ++ status_events ms) /\
     Forall (fun sm => sm ∈ queried (status_events ms)) ms).
Proof.
  intros Hclock Hfuel.
  destruct (wait_for_status_cases env fuel p ms st h Hclock Hfuel)
    as (w1 & b & k & Hw1 & Hpoll & Hcheck & Hb & Hk & Hrun).
  exists w1, b, k. repeat (split; [done|]).
  split.
  { rewrite app_assoc in Hcheck.
    pose proof (all_status_verdict env ms st _ _ b Hcheck) as Hverdict.
    rewrite <- app_assoc in Hcheck. destruct b.
    - split; [by apply Hb|]. intros i sm Hi.
      rewrite app_assoc. by apply Hverdict.
    - destruct Hverdict as (i & sm & Hi & Hans & Heq).
      exists i, sm. split; [done|]. split; [|by rewrite app_assoc].
      apply app_inv_head in Heq.
      apply (f_equal queried) in Heq.
      by rewrite !queried_status_events in Heq. }
  split; [done|].
  split; [rewrite Hrun; by destruct b|]. split.
  - intros Htimeout. destruct Hfuel as [Hpos _].
    destruct fuel as [|fuel]; [lia|].
    unfold poll_until_deadline in Hpoll.
    rewrite run_bind, perform_run in Hpoll.
    destruct (wait_loop_expired env fuel ms st
                (env h Z TimeTime + wait_timeout p) h [] Hclock)
      as (b0 & k0 & _ & Hk0 & Hloop); [simpl; lia|].
    cbv zeta in Hloop. change (h ++ [Ev TimeTime]) with (h ++ Ev TimeTime :: [])
      in Hpoll.
    rewrite Hloop in Hpoll. injection Hpoll as Hpoll.
    exists b0, k0. split; [done|].
    apply (app_inv_head h). rewrite <- Hpoll.
    destruct b0; rewrite <- !app_assoc; simpl; by rewrite ?app_nil_r.
  - intros Hall.
    assert (_wait_for_status env fuel p ms st h
            = (Ok tt, h ++ Ev TimeTime :: status_events ms ++ status_events ms))
      as ->.
    { destruct Hfuel as [Hpos _]. destruct fuel as [|fuel]; [lia|].
      unfold _wait_for_status, poll_until_deadline.
      rewrite !run_bind, perform_run. simpl wait_loop.
      rewrite run_bind, (all_status_true env ms st _ Hall). cbn [negb].
      rewrite run_ret, run_bind.
      rewrite (all_status_true env ms st _ Hall). cbn [negb].
      rewrite run_ret. by rewrite <- !app_assoc. }
    split; [done|].
    apply Forall_forall. intros sm Hsm. by rewrite queried_status_events.
Qed.

Lemma C10_wait_outcome_witness :
  let env := simulated [] (always "running") in
  let p := request ∅ ∅ 1 None true 0 in
  let ms := [Machine "a"; Machine "b"] in
  let st := "running" in
  exists (w1 : history) (b : bool) (k : nat),
    poll_until_deadline env 1 p ms st [] = (Ok tt, [] ++ w1) /\
    all_status env ms st ([] ++ w1)
      = (Ok b, [] ++ w1 ++ status_events (take k ms)) /\
    (ms <> [] -> (0 < k)%nat) /\
    (if b then
       take k ms = ms /\
       forall (i : nat) (sm : machine),
         ms !! i = Some sm ->
         env ([] ++ w1 ++ status_events (take i ms)) string (Status sm) = st
     else
       exists (i : nat) (sm : machine),
         ms !! i = Some sm /\ take k ms = take (S i) ms /\
         env ([] ++ w1 ++ status_events (take i ms)) string (Status sm)
           <> st) /\
    _wait_for_status env 1 p ms st []
      = (if b then Ok tt else FailJson "Timed out creating machines",
         [] ++ w1 ++ status_events (take k ms)) /\
    (fst (_wait_for_status env 1 p ms st [])
       = FailJson "Timed out creating machines" <-> b = false) /\
    (wait_timeout p <= 0 ->
     exists (b0 : bool) (k0 : nat),
       (ms <> [] -> (0 < k0)%nat) /\
       w1 = Ev TimeTime :: status_events (take k0 ms)
              ++ (if b0 then [] else [Ev TimeTime])) /\
    ((forall (h' : history) (sm : machine),
         sm ∈ ms -> env h' string (Status sm) = st) ->
     _wait_for_status env 1 p ms st []
       = (Ok tt, [] ++ Ev TimeTime :: status_events ms ++ status_events ms) /\
     Forall (fun sm => sm ∈ queried (status_events ms)) ms).
Proof.
  intros env p ms st.
  apply (C10_wait_outcome env 1 p ms st []).
  - apply simulated_clock.
  - split; [lia|]. simpl. lia.
Defined.

(** The same wait with every machine already running and
    [wait_timeout = 0]: both machines are asked twice, the wait succeeds. *)
Example wait_zero_timeout_run :
  let a := Machine "a" in
  let b := Machine "b" in
  _wait_for_status (simulated [] (always "running")) 1
    (request ∅ ∅ 1 None true 0) [a; b] "running" []
  = (Ok tt,
     [Ev TimeTime; Ev (Status a); Ev (Status b); Ev (Status a); Ev (Status b)]).
Proof. vm_compute. reflexivity. Qed.

(** ** The entry point *)

(** [main], branch by branch. *)
Lemma main_unfold (env : provider) (HAS_SMARTDC : bool) (fuel : nat)
    (p : params) (h : history) :
  main env HAS_SMARTDC fuel p h =
  if negb HAS_SMARTDC then
    (FailJson "smartdc python module is required", h)
  else if negb (truthy_str (account p)) then
    (FailJson "No account provided", h)
  else if negb (truthy_str (key_id p)) then
    (FailJson "No key_id provided", h)
  else if String.eqb (state p) "absent" then
    match delete_machines env fuel p h with
    | (Ok changed, h') => (Ok (changed, []), h')
    | (FailJson msg, h') => (FailJson msg, h')
    | (Raised e, h') => (Raised e, h')
    | (OutOfFuel, h') => (OutOfFuel, h')
    end
  else if String.eqb (state p) "present" then
    if negb (truthy_str (image p)) then
      (FailJson "image parameter is required for new instance", h)
    else create_virtual_machine env fuel p h
  else (Raised UnboundLocalError, h).
Proof.
  unfold main, get_sdc_creds.
  destruct HAS_SMARTDC; [|done]. cbn [negb]. rewrite run_bind.
  destruct (truthy_str (account p)); [|done].
  destruct (truthy_str (key_id p)); [|done].
  cbn [negb]. rewrite run_ret.
  destruct (String.eqb (state p) "absent").
  - rewrite run_bind.
    by destruct (delete_machines env fuel p h) as [[c| | |] h'].
  - destruct (String.eqb (state p) "present"); [|done].
    by destruct (truthy_str (image p)).
Qed.

(** How [delete_machines] can end: it never raises, and its only failure
    is the wait timeout. *)
Lemma delete_machines_outcome (env : provider) (fuel : nat) (p : params)
    (h : history) :
  (exists changed : bool, fst (delete_machines env fuel p h) = Ok changed) \/
  fst (delete_machines env fuel p h) = FailJson "Timed out creating machines"
  \/ fst (delete_machines env fuel p h) = OutOfFuel.
Proof.
  rewrite delete_machines_unfold.
  destruct (selected env p h).1 as [|sm ms]; [left; by exists false|].
  match goal with |- context [_wait_for_status env fuel p ?m ?st ?hh] =>
    destruct (wait_for_status_run env fuel p m st hh)
      as (r & w & -> & _ & [-> | [-> | ->]]) end; simpl; auto.
  left. by exists true.
Qed.

Lemma create_virtual_machine_failure (env : provider) (fuel : nat)
    (p : params) (h : history) (msg : string) :
  fst (create_virtual_machine env fuel p h) = FailJson msg ->
  msg = "Timed out creating machines" /\ wait p = true.
Proof.
  destruct (exact_count p) as [e|] eqn:He.
  - destruct (decide (count_tag p = ∅)) as [Hct|Hct];
      [|destruct (decide (e = 0)) as [He0|He0]].
    1, 2: rewrite (create_virtual_machine_fallback env fuel p e h) by auto.
    3: rewrite (create_virtual_machine_counting env fuel p e h) by auto.
    all: apply create_and_report_failure.
  - by rewrite create_virtual_machine_unset.
Qed.

(** X1: whenever [main] ends in [fail_json], the message is either the
    wait timeout or one of the four validation messages, and in the latter
    case no call has been issued.  In particular the "Must have tags"
    message of [list_existing_machines] is never reported. *)
Theorem X1_main_failures (env : provider) (HAS_SMARTDC : bool) (fuel : nat)
    (p : params) (h : history) (msg : string) :
  fst (main env HAS_SMARTDC fuel p h) = FailJson msg ->
  msg = "Timed out creating machines" \/
  (msg ∈ validation_messages /\ snd (main env HAS_SMARTDC fuel p h) = h).
Proof.
  rewrite main_unfold. unfold validation_messages.
  destruct HAS_SMARTDC; cbn [negb];
    [|intros [= <-]; right; split; [set_solver|done]].
  destruct (truthy_str (account p)); cbn [negb];
    [|intros [= <-]; right; split; [set_solver|done]].
  destruct (truthy_str (key_id p)); cbn [negb];
    [|intros [= <-]; right; split; [set_solver|done]].
  destruct (String.eqb (state p) "absent").
  - destruct (delete_machines_outcome env fuel p h)
      as [[c Hd] | [Hd | Hd]];
      destruct (delete_machines env fuel p h) as [r h']; simpl in Hd;
      subst r; simpl; try discriminate.
    intros [= <-]. by left.
  - destruct (String.eqb (state p) "present"); [|discriminate].
    destruct (truthy_str (image p)); cbn [negb];
      [|intros [= <-]; right; split; [set_solver|done]].
    intros Hfail. left.
    by apply create_virtual_machine_failure in Hfail as [-> _].
Qed.

Lemma X1_main_failures_witness :
  "No key_id provided" = "Timed out creating machines" \/
  ("No key_id provided" ∈ validation_messages /\
   snd (main (simulated [] (always "running")) true 301
          (Params None None None (Some "myaccount") (Some "") None None
             ∅ 1 ∅ None None "~/.ssh/id_rsa" "present" true 600) [])
   = []).
Proof.
  apply (X1_main_failures (simulated [] (always "running")) true 301
           (Params None None None (Some "myaccount") (Some "") None None
              ∅ 1 ∅ None None "~/.ssh/id_rsa" "present" true 600) []).
  reflexivity.
Defined.

(** X2: with the SDK present, a missing or empty [account] or [key_id]
    makes [main] fail before any call, whatever the state asked for (even
    an unknown one); the account is checked first. *)
Theorem X2_main_credentials (env : provider) (fuel : nat) (p : params)
    (h : history) :
  truthy_str (account p) = false \/ truthy_str (key_id p) = false ->
  main env true fuel p h
  = (FailJson (if truthy_str (account p) then "No key_id provided"
               else "No account provided"), h).
Proof.
  intros Hor. rewrite main_unfold. cbn [negb].
  destruct (truthy_str (account p)); cbn [negb]; [|done].
  destruct Hor as [Hor | ->]; [discriminate|done].
Qed.

Lemma X2_main_credentials_witness :
  let p := Params None None None None None None None
             ∅ 1 ∅ None None "~/.ssh/id_rsa" "restarted" true 600 in
  main (simulated [] (always "running")) true 301 p []
  = (FailJson (if truthy_str (account p) then "No key_id provided"
               else "No account provided"), []).
Proof.
  intros p.
  apply (X2_main_credentials (simulated [] (always "running")) 301 p []).
  left. reflexivity.
Defined.

(** X3: [state=present] without an [image] fails with its own message
    before any call, once the credentials are there. *)
Theorem X3_main_image_required (env : provider) (fuel : nat) (p : params)
    (h : history) :
  truthy_str (account p) = true -> truthy_str (key_id p) = true ->
  state p = "present" -> truthy_str (image p) = false ->
  main env true fuel p h
  = (FailJson "image parameter is required for new instance", h).
Proof.
  intros Ha Hk Hs Hi. rewrite main_unfold, Ha, Hk, Hs, Hi. reflexivity.
Qed.

Lemma X3_main_image_required_witness :
  main (simulated [] (always "running")) true 301
    (Params None None None (Some "myaccount") (Some "/myaccount/keys/mykey")
       (Some "") None ∅ 1 ∅ (Some 1) None "~/.ssh/id_rsa" "present" true 600)
    []
  = (FailJson "image parameter is required for new instance", []).
Proof.
  apply (X3_main_image_required (simulated [] (always "running")) 301
    (Params None None None (Some "myaccount") (Some "/myaccount/keys/mykey")
       (Some "") None ∅ 1 ∅ (Some 1) None "~/.ssh/id_rsa" "present" true 600)
    []); reflexivity.
Defined.

(** X4: a [state] other than ['absent'] and ['present'] is not rejected
    with [fail_json]: neither branch binds [changed], so the final
    [exit_json(changed=changed, ...)] raises [UnboundLocalError]; no call
    has been issued. *)
Theorem X4_main_unknown_state (env : provider) (fuel : nat) (p : params)
    (h : history) :
  truthy_str (account p) = true -> truthy_str (key_id p) = true ->
  state p <> "absent" -> state p <> "present" ->
  main env true fuel p h = (Raised UnboundLocalError, h).
Proof.
  intros Ha Hk Hs1 Hs2. rewrite main_unfold, Ha, Hk. cbn [negb].
  destruct (String.eqb_spec (state p) "absent"); [done|].
  by destruct (String.eqb_spec (state p) "present").
Qed.

Lemma X4_main_unknown_state_witness :
  main (simulated [] (always "running")) true 301
    (Params None None None (Some "myaccount") (Some "/myaccount/keys/mykey")
       None None ∅ 1 ∅ None None "~/.ssh/id_rsa" "stopped" true 600) []
  = (Raised UnboundLocalError, []).
Proof.
  apply (X4_main_unknown_state (simulated [] (always "running")) 301
    (Params None None None (Some "myaccount") (Some "/myaccount/keys/mykey")
       None None ∅ 1 ∅ None None "~/.ssh/id_rsa" "stopped" true 600) []);
    first [reflexivity | discriminate].
Defined.

(** X5: a valid [state=present] invocation that leaves [exact_count]
    unset ends in the [TypeError] of [int(None)] before any call, whatever
    the other parameters are. *)
Theorem X5_main_present_needs_exact_count (env : provider) (fuel : nat)
    (p : params) (h : history) :
  truthy_str (account p) = true -> truthy_str (key_id p) = true ->
  state p = "present" -> truthy_str (image p) = true ->
  exact_count p = None ->
  main env true fuel p h = (Raised TypeError, h).
Proof.
  intros Ha Hk Hs Hi He. rewrite main_unfold, Ha, Hk, Hs, Hi. cbn.
  by apply create_virtual_machine_unset.
Qed.

Lemma X5_main_present_needs_exact_count_witness :
  main (simulated [] (always "running")) true 301
    (request role_web role_web 5 None false 600) []
  = (Raised TypeError, []).
Proof.
  apply (X5_main_present_needs_exact_count (simulated [] (always "running"))
           301 (request role_web role_web 5 None false 600) []);
    reflexivity.
Defined.

(** ** Which calls a run makes *)

Lemma kind_wait_events (w : history) :
  Forall (fun e => is_wait_event e = true) w ->
  Forall (fun e => kind_of e = KStatus \/ kind_of e = KTime
                   \/ kind_of e = KSleep) w.
Proof.
  intros Hw. eapply Forall_impl; [exact Hw|]. intros [R c] Hc.
  destruct c; try discriminate Hc; simpl; auto.
Qed.

Lemma create_and_report_kinds (env : provider) (fuel : nat) (p : params)
    (existing : list machine) (needed : Z) (h : history) :
  exists new : history,
    snd (create_and_report env fuel p existing needed h) = h ++ new /\
    Forall (fun e => kind_of e = KCreate \/ kind_of e = KRaw
                     \/ kind_of e = KStatus \/ kind_of e = KTime
                     \/ kind_of e = KSleep) new.
Proof.
  assert (forall ms, Forall (fun e => kind_of e = KCreate \/ kind_of e = KRaw
            \/ kind_of e = KStatus \/ kind_of e = KTime \/ kind_of e = KSleep)
            (raw_events ms)) as Hraw.
  { intros ms. unfold raw_events. apply Forall_fmap, Forall_forall.
    intros; simpl; auto. }
  destruct (Z_lt_le_dec 0 needed) as [Hpos|Hle].
  - destruct (create_and_report_busy env fuel p existing needed h Hpos)
      as (created & _ & _ & r & w & _ & Hw & Hcases).
    apply kind_wait_events in Hw.
    assert (Forall (fun e => kind_of e = KCreate \/ kind_of e = KRaw
              \/ kind_of e = KStatus \/ kind_of e = KTime
              \/ kind_of e = KSleep)
              (replicate (Z.to_nat needed) (create_event p) ++ w)) as Hpre.
    { apply Forall_app. split.
      - apply Forall_replicate. simpl. auto.
      - eapply Forall_impl; [exact Hw|]. simpl. tauto. }
    destruct Hcases as [(_ & rs & -> & _) | [(_ & _ & ->) | (_ & _ & ->)]];
      simpl.
    + exists ((replicate (Z.to_nat needed) (create_event p) ++ w)
              ++ raw_events (existing ++ created)).
      rewrite <- !app_assoc. split; [done|].
      rewrite app_assoc. apply Forall_app. by split.
    + eexists. rewrite <- app_assoc. by split.
    + eexists. rewrite <- app_assoc. by split.
  - destruct (create_and_report_idle env fuel p existing needed h Hle)
      as (rs & -> & _).
    exists (raw_events existing). by split.
Qed.

Lemma create_virtual_machine_kinds (env : provider) (fuel : nat)
    (p : params) (h : history) :
  exists new : history,
    snd (create_virtual_machine env fuel p h) = h ++ new /\
    Forall (fun e => kind_of e = KList \/ kind_of e = KCreate
                     \/ kind_of e = KRaw \/ kind_of e = KStatus
                     \/ kind_of e = KTime \/ kind_of e = KSleep) new.
Proof.
  destruct (exact_count p) as [e|] eqn:He.
  - destruct (decide (count_tag p = ∅)) as [Hct|Hct];
      [|destruct (decide (e = 0)) as [He0|He0]].
    1, 2: rewrite (create_virtual_machine_fallback env fuel p e h) by auto.
    3: rewrite (create_virtual_machine_counting env fuel p e h) by auto.
    all: match goal with
         | |- context [create_and_report _ ?f ?q ?ex ?n ?hh] =>
             destruct (create_and_report_kinds env f q ex n hh)
               as (new & -> & Hnew)
         end.
    1, 2: exists new; split; [done|];
      eapply Forall_impl; [exact Hnew|]; simpl; tauto.
    eexists (_ :: new). rewrite <- app_assoc. split; [done|].
    constructor; [simpl; auto|].
    eapply Forall_impl; [exact Hnew|]. simpl. tauto.
  - rewrite create_virtual_machine_unset by done. exists [].
    by rewrite app_nil_r.
Qed.

Lemma delete_machines_kinds (env : provider) (fuel : nat) (p : params)
    (h : history) :
  exists new : history,
    snd (delete_machines env fuel p h) = h ++ new /\
    Forall (fun e => kind_of e = KList \/ kind_of e = KGet
                     \/ kind_of e = KStop \/ kind_of e = KDelete
                     \/ kind_of e = KStatus \/ kind_of e = KTime
                     \/ kind_of e = KSleep) new.
Proof.
  rewrite delete_machines_unfold.
  assert (Forall (fun e => kind_of e = KList \/ kind_of e = KGet
            \/ kind_of e = KStop \/ kind_of e = KDelete
            \/ kind_of e = KStatus \/ kind_of e = KTime
            \/ kind_of e = KSleep) (selected env p h).2) as Hsel.
  { unfold selected.
    destruct (truthy_dict (tags p)); [|destruct (truthy_str (machine_id p))];
      simpl; try (constructor; [simpl; auto 10|]); constructor. }
  destruct (selected env p h).1 as [|sm ms] eqn:Hms.
  - by exists (selected env p h).2.
  - match goal with |- context [_wait_for_status env fuel p ?m ?st ?hh] =>
      destruct (wait_for_status_run env fuel p m st hh)
        as (r & w & -> & Hw & Hr) end.
    apply kind_wait_events in Hw.
    assert (Forall (fun e => kind_of e = KList \/ kind_of e = KGet
              \/ kind_of e = KStop \/ kind_of e = KDelete
              \/ kind_of e = KStatus \/ kind_of e = KTime
              \/ kind_of e = KSleep)
              (((selected env p h).2 ++ stop_events (sm :: ms)) ++ w))
      as Hpre.
    { apply Forall_app; split; [apply Forall_app; split; [done|]|].
      - unfold stop_events. apply Forall_fmap, Forall_forall.
        intros; simpl; auto 10.
      - eapply Forall_impl; [exact Hw|]. simpl. tauto. }
    destruct Hr as [-> | [-> | ->]]; simpl.
    + exists ((((selected env p h).2 ++ stop_events (sm :: ms)) ++ w)
              ++ delete_events (sm :: ms)).
      split; [by rewrite <- !app_assoc|].
      apply Forall_app. split; [done|].
      unfold delete_events. apply Forall_fmap, Forall_forall.
      intros; simpl; auto 10.
    + exists (((selected env p h).2 ++ stop_events (sm :: ms)) ++ w).
      split; [by rewrite <- !app_assoc|done].
    + exists (((selected env p h).2 ++ stop_events (sm :: ms)) ++ w).
      split; [by rewrite <- !app_assoc|done].
Qed.

(** X6: a [state=absent] invocation never issues a create call nor a
    raw-data call, and when it succeeds the [machines] it reports is the
    empty list. *)
Theorem X6_main_absent (env : provider) (HAS_SMARTDC : bool) (fuel : nat)
    (p : params) (h : history) :
  state p = "absent" ->
  (exists new : history,
     snd (main env HAS_SMARTDC fuel p h) = h ++ new /\
     Forall (fun e => kind_of e <> KCreate /\ kind_of e <> KRaw) new) /\
  (forall (changed : bool) (machines : list raw_data),
     fst (main env HAS_SMARTDC fuel p h) = Ok (changed, machines) ->
     machines = []).
Proof.
  intros Hs. rewrite main_unfold, Hs. cbn [String.eqb Ascii.eqb Bool.eqb].
  assert (forall r : outcome (bool * list raw_data),
            (exists new : history,
               (r, h).2 = h ++ new /\
               Forall (fun e => kind_of e <> KCreate /\ kind_of e <> KRaw) new))
    as Hsame by (intros r; exists []; by rewrite app_nil_r).
  destruct HAS_SMARTDC; cbn [negb]; [|split; [apply Hsame|discriminate]].
  destruct (truthy_str (account p)); cbn [negb];
    [|split; [apply Hsame|discriminate]].
  destruct (truthy_str (key_id p)); cbn [negb];
    [|split; [apply Hsame|discriminate]].
  destruct (delete_machines_kinds env fuel p h) as (new & Hrun & Hnew).
  assert (Forall (fun e => kind_of e <> KCreate /\ kind_of e <> KRaw) new)
    as Hnew'.
  { eapply Forall_impl; [exact Hnew|]. intros ev Hev. cbv beta in Hev.
    split; intros Hk; rewrite Hk in Hev; intuition discriminate. }
  destruct (delete_machines env fuel p h) as [[c| | |] h']; simpl in *;
    (split; [by exists new|]); try discriminate.
  by intros ? ? [= _ <-].
Qed.

Lemma X6_main_absent_witness :
  (exists new : history,
     snd (main (simulated [Machine "a"] (always "stopped")) true 301
            (removal role_web None 600) []) = [] ++ new /\
     Forall (fun e => kind_of e <> KCreate /\ kind_of e <> KRaw) new) /\
  (forall (changed : bool) (machines : list raw_data),
     fst (main (simulated [Machine "a"] (always "stopped")) true 301
            (removal role_web None 600) []) = Ok (changed, machines) ->
     machines = []).
Proof.
  apply (X6_main_absent (simulated [Machine "a"] (always "stopped")) true 301
           (removal role_web None 600) []).
  reflexivity.
Defined.

(** X7: a [state=present] invocation never stops or deletes a machine and
    never fetches one by id: every call it makes is a listing, a create, a
    status query, a clock reading, a sleep or a raw-data request. *)
Theorem X7_main_present (env : provider) (HAS_SMARTDC : bool) (fuel : nat)
    (p : params) (h : history) :
  state p = "present" ->
  exists new : history,
    snd (main env HAS_SMARTDC fuel p h) = h ++ new /\
    Forall (fun e => kind_of e <> KStop /\ kind_of e <> KDelete
                     /\ kind_of e <> KGet) new.
Proof.
  intros Hs. rewrite main_unfold, Hs. cbn [String.eqb Ascii.eqb Bool.eqb].
  assert (forall r : outcome (bool * list raw_data),
            (exists new : history,
               (r, h).2 = h ++ new /\
               Forall (fun e => kind_of e <> KStop /\ kind_of e <> KDelete
                                /\ kind_of e <> KGet) new))
    as Hsame by (intros r; exists []; by rewrite app_nil_r).
  destruct HAS_SMARTDC; cbn [negb]; [|apply Hsame].
  destruct (truthy_str (account p)); cbn [negb]; [|apply Hsame].
  destruct (truthy_str (key_id p)); cbn [negb]; [|apply Hsame].
  destruct (truthy_str (image p)); cbn [negb]; [|apply Hsame].
  destruct (create_virtual_machine_kinds env fuel p h) as (new & -> & Hnew).
  exists new. split; [done|].
  eapply Forall_impl; [exact Hnew|]. intros ev Hev. cbv beta in Hev.
  repeat split; intros Hk; rewrite Hk in Hev; intuition discriminate.
Qed.

Lemma X7_main_present_witness :
  exists new : history,
    snd (main (simulated [Machine "web-1"] (always "running")) true 301
           (request ∅ role_web 1 (Some 3) true 600) []) = [] ++ new /\
    Forall (fun e => kind_of e <> KStop /\ kind_of e <> KDelete
                     /\ kind_of e <> KGet) new.
Proof.
  apply (X7_main_present (simulated [Machine "web-1"] (always "running"))
           true 301 (request ∅ role_web 1 (Some 3) true 600) []).
  reflexivity.
Defined.

(** ** Returning *)

Lemma create_virtual_machine_returns (env : provider) (fuel : nat)
    (p : params) (h : history) :
  clock_advances env -> enough_fuel fuel p ->
  fst (create_virtual_machine env fuel p h) <> OutOfFuel.
Proof.
  intros Hclock Hfuel.
  assert (forall existing needed h1,
            fst (create_and_report env fuel p existing needed h1)
            <> OutOfFuel) as Hreport.
  { intros existing needed h1.
    destruct (Z_lt_le_dec 0 needed) as [Hpos|Hle].
    - destruct (create_and_report_busy env fuel p existing needed h1 Hpos)
        as (created & _ & _ & r & w & Hrun & _ & Hcases).
      destruct Hcases as [(_ & rs & -> & _) | [(_ & _ & ->) | (-> & Hw & _)]];
        try discriminate.
      rewrite Hw in Hrun.
      pose proof (wait_for_status_returns env fuel p created "running"
                    (h1 ++ replicate (Z.to_nat needed) (create_event p))
                    Hclock Hfuel) as Hret.
      rewrite Hrun in Hret. done.
    - destruct (create_and_report_idle env fuel p existing needed h1 Hle)
        as (rs & -> & _).
      discriminate. }
  destruct (exact_count p) as [e|] eqn:He.
  - destruct (decide (count_tag p = ∅)) as [Hct|Hct];
      [|destruct (decide (e = 0)) as [He0|He0]].
    1, 2: rewrite (create_virtual_machine_fallback env fuel p e h) by auto.
    3: rewrite (create_virtual_machine_counting env fuel p e h) by auto.
    all: apply Hreport.
  - by rewrite create_virtual_machine_unset.
Qed.

Lemma delete_machines_returns (env : provider) (fuel : nat) (p : params)
    (h : history) :
  clock_advances env -> enough_fuel fuel p ->
  fst (delete_machines env fuel p h) <> OutOfFuel.
Proof.
  intros Hclock Hfuel. rewrite delete_machines_unfold.
  destruct (selected env p h).1 as [|sm ms]; [discriminate|].
  match goal with |- context [_wait_for_status env fuel p ?m ?st ?hh] =>
    pose proof (wait_for_status_returns env fuel p m st hh Hclock Hfuel)
      as Hret;
    destruct (_wait_for_status env fuel p m st hh) as [[[]| | |] h3] end;
    simpl in *; done.
Qed.

(** X8: as long as the clock advances, the polling loop ends: with fuel
    for a positive number [n] of passes such that
    [wait_timeout + 2 <= 2 * n] ([enough_fuel]) [main] never runs out of
    fuel, that is, every invocation comes to an end (a result, a
    [fail_json] or an exception). *)
Theorem X8_main_returns (env : provider) (HAS_SMARTDC : bool) (fuel : nat)
    (p : params) (h : history) :
  clock_advances env -> enough_fuel fuel p ->
  fst (main env HAS_SMARTDC fuel p h) <> OutOfFuel.
Proof.
  intros Hclock Hfuel. rewrite main_unfold.
  destruct HAS_SMARTDC; cbn [negb]; [|discriminate].
  destruct (truthy_str (account p)); cbn [negb]; [|discriminate].
  destruct (truthy_str (key_id p)); cbn [negb]; [|discriminate].
  destruct (String.eqb (state p) "absent").
  - pose proof (delete_machines_returns env fuel p h Hclock Hfuel) as Hret.
    by destruct (delete_machines env fuel p h) as [[c| | |] h'].
  - destruct (String.eqb (state p) "present"); [|discriminate].
    destruct (truthy_str (image p)); cbn [negb]; [|discriminate].
    by apply create_virtual_machine_returns.
Qed.

Lemma X8_main_returns_witness :
  fst (main (simulated [] (always "provisioning")) true 4
         (request ∅ role_web 1 (Some 2) true 6) [])
  <> OutOfFuel.
Proof.
  apply (X8_main_returns (simulated [] (always "provisioning")) true 4
           (request ∅ role_web 1 (Some 2) true 6) []).
  - apply simulated_clock.
  - split; [lia|]. simpl. lia.
Defined.

(** The same invocation with one pass less does not get to the end of
    the loop: the fuel bound is the number of passes the loop needs. *)
Example main_needs_the_fuel :
  fst (main (simulated [] (always "provisioning")) true 3
         (request ∅ role_web 1 (Some 2) true 6) [])
  = OutOfFuel.
Proof. vm_compute. reflexivity. Qed.

(** ** Whose status is asked *)

Lemma queried_app (h1 h2 : history) :
  queried (h1 ++ h2) = queried h1 ++ queried h2.
Proof. unfold queried. apply omap_app. Qed.

Lemma take_subseteq (k : nat) (ms : list machine) : take k ms ⊆ ms.
Proof.
  intros x Hx. rewrite <- (take_drop k ms). apply elem_of_app. by left.
Qed.

Lemma wait_loop_queried (env : provider) (fuel : nat) (ms : list machine)
    (st : string) (d : Z) (h : history) :
  exists (r : outcome unit) (w : history),
    wait_loop env fuel ms st d h = (r, h ++ w) /\ queried w ⊆ ms.
Proof.
  revert h. induction fuel as [|fuel IH]; intros h.
  - exists OutOfFuel, []. simpl. rewrite app_nil_r. split; [done|].
    intros x Hx. by apply elem_of_nil in Hx.
  - simpl. rewrite run_bind.
    destruct (all_status_run env ms st h) as (b & k & -> & _).
    destruct b; simpl.
    + exists (Ok tt), (status_events (take k ms)). split; [done|].
      rewrite queried_status_events. apply take_subseteq.
    + rewrite run_bind, perform_run.
      destruct (d >? _).
      * rewrite run_bind, perform_run.
        match goal with |- context [wait_loop env fuel ms st d ?h1] =>
          destruct (IH h1) as (r & w & -> & Hw) end.
        exists r, (status_events (take k ms) ++ [Ev TimeTime]
                   ++ [Ev (TimeSleep 2)] ++ w).
        split; [by rewrite <- !app_assoc|].
        rewrite !queried_app, queried_status_events. simpl.
        intros x Hx. apply elem_of_app in Hx as [Hx|Hx]; [|by apply Hw].
        by apply (take_subseteq k ms).
      * exists (Ok tt), (status_events (take k ms) ++ [Ev TimeTime]).
        split; [by rewrite <- !app_assoc|].
        rewrite queried_app, queried_status_events. simpl.
        rewrite app_nil_r. apply take_subseteq.
Qed.

(** A wait only asks for the status of the machines it was given. *)
Lemma wait_for_status_queried (env : provider) (fuel : nat) (p : params)
    (ms : list machine) (st : string) (h : history) :
  exists w : history,
    snd (_wait_for_status env fuel p ms st h) = h ++ w /\ queried w ⊆ ms.
Proof.
  unfold _wait_for_status, poll_until_deadline.
  rewrite !run_bind, perform_run.
  destruct (wait_loop_queried env fuel ms st
              (env h Z TimeTime + wait_timeout p) (h ++ [Ev TimeTime]))
    as (r & w & -> & Hw).
  destruct r as [[]| | |]; simpl.
  - rewrite run_bind.
    destruct (all_status_run env ms st ((h ++ [Ev TimeTime]) ++ w))
      as (b & k & -> & _).
    exists ([Ev TimeTime] ++ w ++ status_events (take k ms)).
    split; [destruct b; simpl; by rewrite <- !app_assoc|].
    rewrite !queried_app, queried_status_events. simpl.
    intros x Hx. apply elem_of_app in Hx as [Hx|Hx]; [by apply Hw|].
    by apply (take_subseteq k ms).
  - exists ([Ev TimeTime] ++ w). by rewrite <- app_assoc.
  - exists ([Ev TimeTime] ++ w). by rewrite <- app_assoc.
  - exists ([Ev TimeTime] ++ w). by rewrite <- app_assoc.
Qed.

(** ** Selecting the machines to delete *)

(** After the selecting call, [delete_machines] only stops, polls and
    deletes. *)
Lemma delete_machines_after_selection (env : provider) (fuel : nat)
    (p : params) (h : history) :
  exists rest : history,
    snd (delete_machines env fuel p h) = h ++ (selected env p h).2 ++ rest /\
    Forall (fun e => kind_of e <> KList /\ kind_of e <> KGet) rest.
Proof.
  rewrite delete_machines_unfold.
  destruct (selected env p h).1 as [|sm ms] eqn:Hms.
  - exists []. by rewrite app_nil_r.
  - match goal with |- context [_wait_for_status env fuel p ?m ?st ?hh] =>
      destruct (wait_for_status_run env fuel p m st hh)
        as (r & w & -> & Hw & Hr) end.
    apply kind_wait_events in Hw.
    assert (Forall (fun e => kind_of e <> KList /\ kind_of e <> KGet)
              (stop_events (sm :: ms) ++ w)) as Hpre.
    { apply Forall_app; split.
      - unfold stop_events. apply Forall_fmap, Forall_forall.
        intros; simpl; split; discriminate.
      - eapply Forall_impl; [exact Hw|]. intros ev Hev. cbv beta in Hev.
        split; intros Hk; rewrite Hk in Hev; intuition discriminate. }
    destruct Hr as [-> | [-> | ->]]; simpl.
    + exists ((stop_events (sm :: ms) ++ w) ++ delete_events (sm :: ms)).
      split; [by rewrite <- !app_assoc|].
      apply Forall_app. split; [done|].
      unfold delete_events. apply Forall_fmap, Forall_forall.
      intros; simpl; split; discriminate.
    + exists (stop_events (sm :: ms) ++ w).
      split; [by rewrite <- !app_assoc|done].
    + exists (stop_events (sm :: ms) ++ w).
      split; [by rewrite <- !app_assoc|done].
Qed.

(** X9: when [tags] is non-empty, [delete_machines] selects by tags and
    ignores [machine_id]: the first call is the listing by [tags], without
    a state filter, and no machine is ever fetched by id nor is there a
    second listing. *)
Theorem X9_delete_tags_first (env : provider) (fuel : nat) (p : params)
    (h : history) :
  tags p <> ∅ ->
  exists rest : history,
    snd (delete_machines env fuel p h)
      = h ++ Ev (Machines (tags p) None) :: rest /\
    Forall (fun e => kind_of e <> KList /\ kind_of e <> KGet) rest.
Proof.
  intros Ht.
  destruct (delete_machines_after_selection env fuel p h)
    as (rest & Hrun & Hrest).
  exists rest. split; [|done]. rewrite Hrun. unfold selected, truthy_dict.
  by rewrite bool_decide_eq_true_2 by done.
Qed.

Lemma X9_delete_tags_first_witness :
  let p := removal role_web (Some "abc") 600 in
  exists rest : history,
    snd (delete_machines (simulated [Machine "a"] (always "stopped")) 301 p [])
      = [] ++ Ev (Machines (tags p) None) :: rest /\
    Forall (fun e => kind_of e <> KList /\ kind_of e <> KGet) rest.
Proof.
  intros p.
  apply (X9_delete_tags_first (simulated [Machine "a"] (always "stopped"))
           301 p []).
  apply (bool_decide_unpack _). vm_compute. exact I.
Defined.

(** X10: with no tags and a non-empty [machine_id], [delete_machines]
    fetches that one machine, stops it, waits, and then either deletes it
    and returns [True], or fails with the timeout message having deleted
    nothing; no listing is made and no other machine is touched. *)
Theorem X10_delete_by_id (env : provider) (fuel : nat) (p : params)
    (h : history) (mid : string) :
  clock_advances env -> enough_fuel fuel p ->
  tags p = ∅ -> machine_id p = Some mid -> mid <> "" ->
  let sm := env h machine (GetMachine mid) in
  exists w : history,
    Forall (fun e => is_wait_event e = true) w /\
    queried w ⊆ [sm] /\
    (delete_machines env fuel p h
       = (Ok true,
          h ++ [Ev (GetMachine mid); Ev (Stop sm)] ++ w ++ [Ev (Delete sm)])
     \/ delete_machines env fuel p h
       = (FailJson "Timed out creating machines",
          h ++ [Ev (GetMachine mid); Ev (Stop sm)] ++ w)).
Proof.
  intros Hclock Hfuel Ht Hid Hne sm.
  rewrite delete_machines_unfold. unfold selected, truthy_dict.
  rewrite Ht, Hid, bool_decide_eq_false_2 by auto.
  assert (truthy_str (Some mid) = true) as ->.
  { simpl. by destruct (String.eqb_spec mid ""). }
  cbn [fst snd default from_option id]. fold sm.
  destruct (wait_for_status_queried env fuel p [sm] "stopped"
              ((h ++ [Ev (GetMachine mid)]) ++ stop_events [sm]))
    as (w & Hsnd & Hq).
  destruct (wait_for_status_run env fuel p [sm] "stopped"
              ((h ++ [Ev (GetMachine mid)]) ++ stop_events [sm]))
    as (r & w' & Hrun & Hw' & Hr).
  pose proof (wait_for_status_returns env fuel p [sm] "stopped"
                ((h ++ [Ev (GetMachine mid)]) ++ stop_events [sm])
                Hclock Hfuel) as Hret.
  rewrite Hrun in Hsnd, Hret. simpl in Hsnd, Hret.
  apply app_inv_head in Hsnd. subst w'. rewrite Hrun.
  exists w. split; [done|]. split; [done|].
  destruct Hr as [-> | [-> | ->]]; [left|right|done]; simpl;
    by rewrite <- !app_assoc.
Qed.

Lemma X10_delete_by_id_witness :
  let env := simulated [] (always "stopped") in
  let p := removal ∅ (Some "abc") 600 in
  let sm := env [] machine (GetMachine "abc") in
  exists w : history,
    Forall (fun e => is_wait_event e = true) w /\
    queried w ⊆ [sm] /\
    (delete_machines env 301 p []
       = (Ok true,
          [] ++ [Ev (GetMachine "abc"); Ev (Stop sm)] ++ w ++ [Ev (Delete sm)])
     \/ delete_machines env 301 p []
       = (FailJson "Timed out creating machines",
          [] ++ [Ev (GetMachine "abc"); Ev (Stop sm)] ++ w)).
Proof.
  intros env p.
  apply (X10_delete_by_id env 301 p [] "abc").
  - apply simulated_clock.
  - split; [lia|]. simpl. lia.
  - reflexivity.
  - reflexivity.
  - discriminate.
Defined.

(** ** The wait in detail *)

Lemma created_by_app (env : provider) (h a b : history) :
  created_by env h (a ++ b)
  = created_by env h a ++ created_by env (h ++ a) b.
Proof.
  revert h. induction a as [|e a IH]; intros h; simpl.
  - by rewrite app_nil_r.
  - rewrite IH, <- !app_assoc. done.
Qed.

Lemma created_by_no_create (env : provider) (h w : history) :
  Forall (fun e => is_create e = false) w -> created_by env h w = [].
Proof.
  intros Hw. revert h. induction Hw as [|[R c] w Hc Hw IH]; intros h; simpl.
  - done.
  - rewrite IH. destruct c; try discriminate Hc; done.
Qed.

Lemma created_by_length (env : provider) (h new : history) :
  length (created_by env h new) = creates new.
Proof.
  unfold creates. revert h. induction new as [|[R c] new IH]; intros h.
  - done.
  - simpl created_by. rewrite length_app, IH.
    destruct c; simpl; done.
Qed.

Lemma create_loop_created_by (env : provider) (n : nat) (p : params)
    (acc : list machine) (h : history) :
  create_loop env n p (full_tags p) acc h
  = (Ok (acc ++ created_by env h (replicate n (create_event p))),
     h ++ replicate n (create_event p)).
Proof.
  revert acc h. induction n as [|n IH]; intros acc h; simpl.
  - by rewrite !app_nil_r.
  - rewrite run_bind, perform_run, IH. unfold create_event at 3.
    by rewrite <- !app_assoc.
Qed.

(** The sleeps of the polling loop: two seconds each, and in total less
    than two seconds beyond the time left until the deadline. *)
Lemma wait_loop_slept (env : provider) (fuel : nat) (ms : list machine)
    (st : string) (d : Z) (h0 hm : history) :
  clock_advances env ->
  exists (r : outcome unit) (w : history),
    wait_loop env fuel ms st d (h0 ++ Ev TimeTime :: hm)
      = (r, (h0 ++ Ev TimeTime :: hm) ++ w) /\
    Forall (fun e => forall secs, sleep_secs e = Some secs -> secs = 2) w /\
    slept w <= Z.max 0 (d - (env h0 Z TimeTime + slept hm) + 1).
Proof.
  intros Hclock. revert hm. induction fuel as [|fuel IH]; intros hm.
  - exists OutOfFuel, []. simpl. rewrite app_nil_r.
    split; [done|]. split; [done|lia].
  - simpl. rewrite run_bind.
    destruct (all_status_run env ms st (h0 ++ Ev TimeTime :: hm))
      as (b & k & -> & _).
    assert (Forall (fun e => forall secs, sleep_secs e = Some secs -> secs = 2)
              (status_events (take k ms))) as Hst.
    { unfold status_events. apply Forall_fmap, Forall_forall.
      intros sm _ secs. discriminate. }
    destruct b; simpl.
    + exists (Ok tt), (status_events (take k ms)).
      split; [done|]. split; [done|]. rewrite slept_status_events. lia.
    + rewrite run_bind, perform_run. rewrite <- app_assoc. simpl.
      pose proof (Hclock h0 (hm ++ status_events (take k ms))) as Hnow.
      rewrite slept_app, slept_status_events in Hnow.
      destruct (Z.gtb_spec d
        (env (h0 ++ Ev TimeTime :: hm ++ status_events (take k ms)) Z
           TimeTime)) as [Hgt|Hle].
      * rewrite run_bind, perform_run.
        rewrite <- !app_assoc. simpl. rewrite <- !app_assoc. simpl.
        destruct (IH (hm ++ status_events (take k ms)
                        ++ [Ev TimeTime; Ev (TimeSleep 2)]))
          as (r & w & Hrun & Hw & Hbound).
        rewrite Hrun.
        exists r, (status_events (take k ms)
                   ++ [Ev TimeTime; Ev (TimeSleep 2)] ++ w).
        split; [f_equal; rewrite <- ?app_assoc; simpl;
                by rewrite <- ?app_assoc|].
        split.
        -- apply Forall_app. split; [done|].
           constructor; [discriminate|]. constructor; [|done].
           by intros secs [= <-].
        -- rewrite !slept_app, slept_status_events in *. simpl in *. lia.
      * rewrite run_ret.
        exists (Ok tt), (status_events (take k ms) ++ [Ev TimeTime]).
        split; [f_equal; rewrite <- ?app_assoc; simpl;
                by rewrite <- ?app_assoc|].
        split.
        -- apply Forall_app. split; [done|]. constructor; [discriminate|done].
        -- rewrite slept_app, slept_status_events. simpl. lia.
Qed.

Lemma wait_for_status_slept (env : provider) (fuel : nat) (p : params)
    (ms : list machine) (st : string) (h : history) :
  clock_advances env ->
  exists w : history,
    snd (_wait_for_status env fuel p ms st h) = h ++ w /\
    Forall (fun e => forall secs, sleep_secs e = Some secs -> secs = 2) w /\
    slept w <= Z.max 0 (wait_timeout p + 1).
Proof.
  intros Hclock. unfold _wait_for_status, poll_until_deadline.
  rewrite !run_bind, perform_run.
  change (h ++ [Ev TimeTime]) with (h ++ Ev TimeTime :: []).
  destruct (wait_loop_slept env fuel ms st
              (env h Z TimeTime + wait_timeout p) h [] Hclock)
    as (r & w & -> & Hw & Hbound).
  simpl in Hbound.
  replace (env h Z TimeTime + wait_timeout p - (env h Z TimeTime + 0) + 1)
    with (wait_timeout p + 1) in Hbound by lia.
  destruct r as [[]| | |]; simpl.
  - rewrite run_bind.
    destruct (all_status_run env ms st ((h ++ [Ev TimeTime]) ++ w))
      as (b & k & -> & _).
    exists ([Ev TimeTime] ++ w ++ status_events (take k ms)).
    split; [destruct b; simpl; by rewrite <- !app_assoc|]. split.
    + constructor; [discriminate|]. apply Forall_app. split; [done|].
      unfold status_events. apply Forall_fmap, Forall_forall.
      intros sm _ secs. discriminate.
    + simpl. by rewrite slept_app, slept_status_events, Z.add_0_r.
  - exists ([Ev TimeTime] ++ w). rewrite <- app_assoc.
    split; [done|]. split; [by constructor|done].
  - exists ([Ev TimeTime] ++ w). rewrite <- app_assoc.
    split; [done|]. split; [by constructor|done].
  - exists ([Ev TimeTime] ++ w). rewrite <- app_assoc.
    split; [done|]. split; [by constructor|done].
Qed.

(** A wait that succeeds ends with a pass in which every machine
    answered the target status. *)
Lemma wait_for_status_ok (env : provider) (fuel : nat) (p : params)
    (ms : list machine) (st : string) (h w : history) :
  _wait_for_status env fuel p ms st h = (Ok tt, h ++ w) ->
  exists w1 : history,
    w = w1 ++ status_events ms /\
    all_status env ms st (h ++ w1) = (Ok true, h ++ w).
Proof.
  unfold _wait_for_status. rewrite run_bind.
  destruct (poll_until_deadline_run env fuel p ms st h)
    as (r & w0 & -> & _ & [-> | ->]); [|discriminate].
  rewrite run_bind.
  destruct (all_status_run env ms st (h ++ Ev TimeTime :: w0))
    as (b & k & Hcheck & Hk & Hb & _).
  rewrite Hcheck. destruct b; [|discriminate]. simpl.
  rewrite (Hb eq_refl), take_ge in * by lia.
  intros [= Heq]. rewrite <- app_assoc in Heq. apply app_inv_head in Heq.
  exists (Ev TimeTime :: w0). subst w. split; [done|].
  by rewrite Hcheck, <- app_assoc.
Qed.

(** Lines 215-227 in full: the create calls, then the calls of the wait
    (none without [wait]), which only concern the machines just created,
    then one raw-data request per machine, the listed ones first. *)
Lemma create_and_report_structure (env : provider) (fuel : nat) (p : params)
    (existing : list machine) (needed : Z) (h : history) :
  let cs := replicate (Z.to_nat needed) (create_event p) in
  let created := created_by env h cs in
  exists w : history,
    Forall (fun e => is_wait_event e = true) w /\
    queried w ⊆ created /\
    (wait p = false -> w = []) /\
    (clock_advances env ->
     Forall (fun e => forall secs, sleep_secs e = Some secs -> secs = 2) w /\
     slept w <= Z.max 0 (wait_timeout p + 1)) /\
    ((exists rs : list raw_data,
        create_and_report env fuel p existing needed h
          = (Ok (needed >? 0, rs),
             h ++ cs ++ w ++ raw_events (existing ++ created)) /\
        length rs = length (existing ++ created) /\
        (wait p = true ->
         exists w1 : history,
           w = w1 ++ status_events created /\
           all_status env created "running" (h ++ cs ++ w1)
             = (Ok true, h ++ cs ++ w)))
     \/ (create_and_report env fuel p existing needed h
           = (FailJson "Timed out creating machines", h ++ cs ++ w) /\
         wait p = true /\ 0 < needed)
     \/ (create_and_report env fuel p existing needed h
           = (OutOfFuel, h ++ cs ++ w) /\
         wait p = true /\ 0 < needed)).
Proof.
  intros cs created.
  destruct (Z.gtb_spec needed 0) as [Hpos|Hle].
  - destruct (create_and_report_busy env fuel p existing needed h)
      as (created' & Hlen & Hloop & r & w & Hrun & Hw & Hcases); [lia|].
    fold cs in Hloop, Hrun, Hcases.
    rewrite create_loop_created_by in Hloop. fold cs created in Hloop.
    injection Hloop as <-.
    exists w. split; [done|].
    destruct (wait p) eqn:Hwait.
    + destruct (wait_for_status_queried env fuel p created "running"
                  (h ++ cs)) as (wq & Hq & Hsub).
      rewrite Hrun in Hq. simpl in Hq. apply app_inv_head in Hq. subst wq.
      split; [done|]. split; [discriminate|]. split.
      { intros Hclock.
        destruct (wait_for_status_slept env fuel p created "running"
                    (h ++ cs) Hclock) as (ws & Hs & Hsleep).
        rewrite Hrun in Hs. simpl in Hs. apply app_inv_head in Hs.
        by subst ws. }
      destruct Hcases as [(-> & rs & Hres & Hrs) | [(_ & _ & Hres)
                                                   | (_ & _ & Hres)]].
      * left. exists rs. rewrite Hres, <- !app_assoc.
        split; [done|]. split; [done|]. intros _.
        destruct (wait_for_status_ok env fuel p created "running"
                    (h ++ cs) w Hrun) as (w1 & -> & Hcheck).
        exists w1. split; [done|]. by rewrite <- !app_assoc in Hcheck.
      * right. left. rewrite Hres, <- app_assoc.
        split; [done|split; [done|lia]].
      * right. right. rewrite Hres, <- app_assoc.
        split; [done|split; [done|lia]].
    + injection Hrun as <- Hrun.
      assert (w = []) as ->.
      { eapply app_inv_head. rewrite app_nil_r. symmetry. exact Hrun. }
      split; [intros x Hx; by apply elem_of_nil in Hx|].
      split; [done|]. split; [intros _; split; [done|simpl; lia]|].
      destruct Hcases as [(_ & rs & Hres & Hrs) | [(_ & ? & _)
                                                  | (_ & ? & _)]];
        try discriminate.
      left. exists rs. rewrite Hres, <- !app_assoc.
      split; [done|]. split; [done|]. discriminate.
  - destruct (create_and_report_idle env fuel p existing needed h Hle)
      as (rs & Hres & Hrs).
    assert (cs = []) as Hcs
      by (unfold cs; replace (Z.to_nat needed) with 0%nat by lia; done).
    assert (created = []) as Hcr by (unfold created; by rewrite Hcs).
    exists []. rewrite Hcs, Hcr. simpl. rewrite !app_nil_r.
    split; [done|].
    split; [intros x Hx; by apply elem_of_nil in Hx|].
    split; [done|]. split; [intros _; split; [done|lia]|].
    left. exists rs. split; [done|]. split; [done|].
    intros _. exists []. simpl. by rewrite app_nil_r.
Qed.

(** How [create_virtual_machine] gets to lines 215-227. *)
Lemma create_virtual_machine_reaches (env : provider) (fuel : nat)
    (p : params) (e : Z) (h : history) :
  exact_count p = Some e ->
  exists (pre0 : history) (existing : list machine) (needed : Z),
    create_virtual_machine env fuel p h
      = create_and_report env fuel p existing needed (h ++ pre0) /\
    ((pre0 = [] /\ existing = [] /\ needed = count p) \/
     (count_tag p <> ∅ /\ e <> 0 /\
      pre0 = [Ev (Machines (count_tag p) (Some "running"))] /\
      existing = env h _ (Machines (count_tag p) (Some "running")) /\
      needed = e - Z.of_nat (length existing))).
Proof.
  intros He.
  destruct (decide (count_tag p = ∅)) as [Hct|Hct];
    [|destruct (decide (e = 0)) as [He0|He0]].
  - exists [], [], (count p). rewrite app_nil_r. split; [|by left].
    apply (create_virtual_machine_fallback env fuel p e h He). auto.
  - exists [], [], (count p). rewrite app_nil_r. split; [|by left].
    apply (create_virtual_machine_fallback env fuel p e h He). auto.
  - eexists [_], _, _.
    split; [by apply create_virtual_machine_counting|]. right. done.
Qed.

Lemma queried_none (l : history) :
  Forall (fun e => status_machine e = None) l -> queried l = [].
Proof. apply omap_none. Qed.

Lemma wait_events_no_create (w : history) :
  Forall (fun e => is_wait_event e = true) w ->
  Forall (fun e => is_create e = false) w.
Proof.
  intros Hw. eapply Forall_impl; [exact Hw|]. intros [R c] Hc.
  by destruct c.
Qed.

Lemma raw_events_facts (ms : list machine) :
  Forall (fun e => is_create e = false) (raw_events ms) /\
  Forall (fun e => status_machine e = None) (raw_events ms) /\
  Forall (fun e => is_wait_event e = false) (raw_events ms) /\
  Forall (fun e => sleep_secs e = None) (raw_events ms) /\
  Forall (fun e => kind_of e = KRaw) (raw_events ms).
Proof.
  unfold raw_events.
  repeat split; apply Forall_fmap, Forall_forall; done.
Qed.

Lemma create_events_facts (n : nat) (p : params) :
  Forall (fun e => status_machine e = None) (replicate n (create_event p)) /\
  Forall (fun e => is_wait_event e = false) (replicate n (create_event p)) /\
  Forall (fun e => sleep_secs e = None) (replicate n (create_event p)).
Proof. repeat split; by apply Forall_replicate. Qed.

(** What precedes lines 215-227 is nothing or the one listing. *)
Lemma reaches_pre0_facts (p : params) (e : Z) (pre0 : history)
    (existing : list machine) (needed : Z) (h : history) (env : provider) :
  (pre0 = [] /\ existing = [] /\ needed = count p) \/
  (count_tag p <> ∅ /\ e <> 0 /\
   pre0 = [Ev (Machines (count_tag p) (Some "running"))] /\
   existing = env h _ (Machines (count_tag p) (Some "running")) /\
   needed = e - Z.of_nat (length existing)) ->
  Forall (fun e => is_create e = false) pre0 /\
  Forall (fun e => status_machine e = None) pre0 /\
  Forall (fun e => is_wait_event e = false) pre0 /\
  Forall (fun e => sleep_secs e = None) pre0.
Proof.
  intros [(-> & _) | (_ & _ & -> & _)]; repeat split; repeat constructor.
Qed.

(** X11: when [exact_count] is set and [wait] is off,
    [create_virtual_machine] always succeeds, whatever the provider
    answers, and never asks for a status, reads the clock or sleeps. *)
Theorem X11_no_wait_no_poll (env : provider) (fuel : nat) (p : params)
    (e : Z) (h : history) :
  exact_count p = Some e -> wait p = false ->
  exists (changed : bool) (rs : list raw_data) (new : history),
    create_virtual_machine env fuel p h = (Ok (changed, rs), h ++ new) /\
    Forall (fun ev => is_wait_event ev = false) new.
Proof.
  intros He Hwait.
  destruct (create_virtual_machine_reaches env fuel p e h He)
    as (pre0 & existing & needed & -> & Hmode).
  destruct (reaches_pre0_facts p e pre0 existing needed h env Hmode)
    as (_ & _ & Hpre0 & _).
  destruct (create_and_report_structure env fuel p existing needed (h ++ pre0))
    as (w & _ & _ & Hw & _ & Hcases).
  rewrite (Hw Hwait) in Hcases.
  destruct Hcases as [(rs & Hres & _) | [(_ & ? & _) | (_ & ? & _)]];
    try congruence.
  eexists _, rs, _. rewrite Hres, <- !app_assoc. split; [done|].
  apply Forall_app. split; [done|]. apply Forall_app.
  split; [apply create_events_facts|]. simpl. apply raw_events_facts.
Qed.

Lemma X11_no_wait_no_poll_witness :
  exists (changed : bool) (rs : list raw_data) (new : history),
    create_virtual_machine (simulated [Machine "a"] (always "provisioning")) 0
      (request ∅ role_web 1 (Some 3) false 600) []
    = (Ok (changed, rs), [] ++ new) /\
    Forall (fun ev => is_wait_event ev = false) new.
Proof.
  apply (X11_no_wait_no_poll (simulated [Machine "a"] (always "provisioning"))
           0 (request ∅ role_web 1 (Some 3) false 600) 3 []); reflexivity.
Defined.

(** X12: the only machines whose status [create_virtual_machine] asks
    for are the ones the provider returned for the create calls of this
    very run; machines that existed before are never polled. *)
Theorem X12_only_created_are_polled (env : provider) (fuel : nat)
    (p : params) (h : history) :
  exists new : history,
    snd (create_virtual_machine env fuel p h) = h ++ new /\
    queried new ⊆ created_by env h new.
Proof.
  destruct (exact_count p) as [e|] eqn:He.
  - destruct (create_virtual_machine_reaches env fuel p e h He)
      as (pre0 & existing & needed & -> & Hmode).
    destruct (reaches_pre0_facts p e pre0 existing needed h env Hmode)
      as (Hc0 & Hq0 & _ & _).
    destruct (create_and_report_structure env fuel p existing needed
                (h ++ pre0)) as (w & Hw & Hq & _ & _ & Hcases).
    set (cs := replicate (Z.to_nat needed) (create_event p)) in *.
    set (created := created_by env (h ++ pre0) cs) in *.
    assert (forall tail : history,
              Forall (fun e => is_create e = false) tail ->
              Forall (fun e => status_machine e = None) tail ->
              queried (pre0 ++ cs ++ w ++ tail)
              ⊆ created_by env h (pre0 ++ cs ++ w ++ tail)) as Hgen.
    { intros tail Hct Hqt.
      rewrite !queried_app, (queried_none pre0 Hq0), (queried_none tail Hqt).
      rewrite (queried_none cs) by apply create_events_facts.
      rewrite !created_by_app, (created_by_no_create env h pre0 Hc0).
      rewrite (created_by_no_create _ _ w (wait_events_no_create w Hw)).
      rewrite (created_by_no_create _ _ tail Hct).
      simpl. by rewrite !app_nil_r. }
    destruct Hcases as [(rs & -> & _) | [(-> & _) | (-> & _)]]; simpl.
    + eexists. rewrite <- !app_assoc. split; [done|].
      apply Hgen; apply raw_events_facts.
    + exists (pre0 ++ cs ++ w ++ []). rewrite app_nil_r, <- !app_assoc.
      split; [done|]. pose proof (Hgen [] (Forall_nil_2 _) (Forall_nil_2 _)).
      by rewrite app_nil_r in *.
    + exists (pre0 ++ cs ++ w ++ []). rewrite app_nil_r, <- !app_assoc.
      split; [done|]. pose proof (Hgen [] (Forall_nil_2 _) (Forall_nil_2 _)).
      by rewrite app_nil_r in *.
  - rewrite create_virtual_machine_unset by done. exists [].
    rewrite app_nil_r. split; [done|]. intros x Hx. by apply elem_of_nil in Hx.
Qed.

(** A run in which two machines exist and one is created: only the new
    one is polled. *)
Example only_created_are_polled_run :
  queried (snd (create_virtual_machine
                  (simulated [Machine "web-1"; Machine "web-2"]
                     (always "running")) 301
                  (request ∅ role_web 1 (Some 3) true 600) []))
  = [Machine "new-0"; Machine "new-0"].
Proof. vm_compute. reflexivity. Qed.

Lemma quiet_creates_pre (l : history) :
  Forall (fun e => is_create e = false) l -> creates l = 0%nat.
Proof.
  unfold creates. induction 1 as [|e l He Hl IH]; [done|].
  by rewrite filter_cons_False by (rewrite He; auto).
Qed.

(** ** What a successful run reports *)

(** X13: when [create_virtual_machine] returns [(changed, machines)]:
    [changed] is true exactly when the run issued at least one create call;
    the run ends with one raw-data request per reported machine, first for
    the machines of the listing (none when no listing was made), then for
    the created ones, in that order; so [machines] has as many entries as
    there were listed and created machines. *)
Theorem X13_report (env : provider) (fuel : nat) (p : params)
    (h h' : history) (changed : bool) (rs : list raw_data) :
  create_virtual_machine env fuel p h = (Ok (changed, rs), h') ->
  exists (existing : list machine) (new0 : history),
    h' = h ++ new0 ++ raw_events (existing ++ created_by env h new0) /\
    Forall (fun e => kind_of e <> KRaw) new0 /\
    length rs = (length existing + creates new0)%nat /\
    (changed = true <-> (0 < creates new0)%nat) /\
    (existing = [] \/
     (count_tag p <> ∅ /\
      existing = env h _ (Machines (count_tag p) (Some "running")))).
Proof.
  intros Hrun.
  destruct (exact_count p) as [e|] eqn:He;
    [|by rewrite create_virtual_machine_unset in Hrun].
  destruct (create_virtual_machine_reaches env fuel p e h He)
    as (pre0 & existing & needed & Heq & Hmode).
  destruct (reaches_pre0_facts p e pre0 existing needed h env Hmode)
    as (Hc0 & _ & _ & _).
  rewrite Heq in Hrun.
  destruct (create_and_report_structure env fuel p existing needed (h ++ pre0))
    as (w & Hw & _ & _ & _ & Hcases).
  set (cs := replicate (Z.to_nat needed) (create_event p)) in *.
  set (created := created_by env (h ++ pre0) cs) in *.
  destruct Hcases as [(rs' & Hres & Hrs & _) | [(Hres & _) | (Hres & _)]];
    rewrite Hres in Hrun; try discriminate.
  injection Hrun as <- <- <-.
  assert (created_by env h (pre0 ++ cs ++ w) = created) as Hcr.
  { rewrite !created_by_app, (created_by_no_create env h pre0 Hc0).
    rewrite (created_by_no_create _ _ w (wait_events_no_create w Hw)).
    simpl. by rewrite app_nil_r. }
  assert (creates (pre0 ++ cs ++ w) = Z.to_nat needed) as Hn.
  { rewrite <- created_by_length with (env := env) (h := h), Hcr.
    unfold created. rewrite created_by_length. apply creates_replicate. }
  exists existing, (pre0 ++ cs ++ w). rewrite Hcr, Hn.
  split; [by rewrite <- !app_assoc|]. split.
  { apply Forall_app. split.
    - destruct Hmode as [(-> & _) | (_ & _ & -> & _)];
        repeat constructor; discriminate.
    - apply Forall_app. split; [by apply Forall_replicate|].
      eapply Forall_impl; [exact (kind_wait_events w Hw)|].
      intros ev Hev Hk. cbv beta in Hev. rewrite Hk in Hev.
      intuition discriminate. }
  split.
  { rewrite Hrs, length_app. f_equal. unfold created.
    rewrite created_by_length. apply creates_replicate. }
  split.
  { destruct (Z.gtb_spec needed 0); split; intros; try done; lia. }
  destruct Hmode as [(_ & -> & _) | (Hct & _ & _ & -> & _)]; auto.
Qed.

Lemma X13_report_witness :
  let env := simulated [Machine "web-1"; Machine "web-2"] (always "running") in
  let p := request ∅ role_web 1 (Some 5) true 600 in
  let h' := snd (create_virtual_machine env 301 p []) in
  let rs := [RawData "web-1"; RawData "web-2"; RawData "new-0";
             RawData "new-1"; RawData "new-2"] in
  exists (existing : list machine) (new0 : history),
    h' = [] ++ new0 ++ raw_events (existing ++ created_by env [] new0) /\
    Forall (fun e => kind_of e <> KRaw) new0 /\
    length rs = (length existing + creates new0)%nat /\
    (true = true <-> (0 < creates new0)%nat) /\
    (existing = [] \/
     (count_tag p <> ∅ /\
      existing = env [] _ (Machines (count_tag p) (Some "running")))).
Proof.
  intros env p h' rs.
  apply (X13_report env 301 p [] h' true rs).
  vm_compute. reflexivity.
Defined.

(** X14: when [wait] is set and [create_virtual_machine] succeeds, the
    last thing it did before asking for the raw data was a pass over the
    machines it created in which every one of them answered ['running']. *)
Theorem X14_success_means_running (env : provider) (fuel : nat) (p : params)
    (h h' : history) (changed : bool) (rs : list raw_data) :
  wait p = true ->
  create_virtual_machine env fuel p h = (Ok (changed, rs), h') ->
  exists pre tail : history,
    let created := created_by env h pre in
    h' = h ++ pre ++ status_events created ++ tail /\
    length created = creates (pre ++ status_events created ++ tail) /\
    (forall (i : nat) (sm : machine),
        created !! i = Some sm ->
        env (h ++ pre ++ status_events (take i created)) string (Status sm)
        = "running") /\
    Forall (fun e => kind_of e = KRaw) tail.
Proof.
  intros Hwait Hrun.
  destruct (exact_count p) as [e|] eqn:He;
    [|by rewrite create_virtual_machine_unset in Hrun].
  destruct (create_virtual_machine_reaches env fuel p e h He)
    as (pre0 & existing & needed & Heq & Hmode).
  destruct (reaches_pre0_facts p e pre0 existing needed h env Hmode)
    as (Hc0 & _ & _ & _).
  rewrite Heq in Hrun.
  destruct (create_and_report_structure env fuel p existing needed (h ++ pre0))
    as (w & Hw & _ & _ & _ & Hcases).
  set (cs := replicate (Z.to_nat needed) (create_event p)) in *.
  set (created := created_by env (h ++ pre0) cs) in *.
  destruct Hcases as [(rs' & Hres & Hrs & Hlast) | [(Hres & _) | (Hres & _)]];
    rewrite Hres in Hrun; try discriminate.
  injection Hrun as <- <- <-.
  destruct (Hlast Hwait) as (w1 & -> & Hcheck).
  apply Forall_app in Hw as [Hw1 _].
  assert (created_by env h (pre0 ++ cs ++ w1) = created) as Hcr.
  { rewrite !created_by_app, (created_by_no_create env h pre0 Hc0).
    rewrite (created_by_no_create _ _ w1 (wait_events_no_create w1 Hw1)).
    simpl. by rewrite app_nil_r. }
  exists (pre0 ++ cs ++ w1), (raw_events (existing ++ created)).
  cbv zeta. rewrite Hcr. split; [by rewrite <- !app_assoc|]. split.
  { rewrite !creates_app, creates_raw_events.
    rewrite (creates_wait_events _ (Forall_status_events created)).
    rewrite (creates_wait_events w1 Hw1), (quiet_creates_pre pre0 Hc0).
    unfold created, cs. rewrite created_by_length, creates_replicate. lia. }
  split; [|apply raw_events_facts].
  intros i sm Hi.
  rewrite <- !app_assoc in Hcheck.
  replace (h ++ pre0 ++ cs ++ w1 ++ status_events created)
    with ((h ++ pre0 ++ cs ++ w1) ++ status_events created) in Hcheck
    by (by rewrite <- !app_assoc).
  pose proof (all_status_verdict env created "running"
                (h ++ pre0 ++ cs ++ w1) _ true Hcheck i sm Hi) as Hans.
  rewrite <- !app_assoc in Hans. rewrite <- !app_assoc. exact Hans.
Qed.

Lemma X14_success_means_running_witness :
  let env := simulated [] (always "running") in
  let p := request ∅ role_web 1 (Some 2) true 600 in
  let h' := snd (create_virtual_machine env 301 p []) in
  exists pre tail : history,
    let created := created_by env [] pre in
    h' = [] ++ pre ++ status_events created ++ tail /\
    length created = creates (pre ++ status_events created ++ tail) /\
    (forall (i : nat) (sm : machine),
        created !! i = Some sm ->
        env ([] ++ pre ++ status_events (take i created)) string (Status sm)
        = "running") /\
    Forall (fun e => kind_of e = KRaw) tail.
Proof.
  intros env p h'.
  apply (X14_success_means_running env 301 p [] h' true
           [RawData "new-0"; RawData "new-1"]).
  - reflexivity.
  - vm_compute. reflexivity.
Defined.

(** ** Sleeping *)

Lemma slept_none (l : history) :
  Forall (fun e => sleep_secs e = None) l -> slept l = 0.
Proof.
  induction 1 as [|[R c] l Hc Hl IH]; simpl; [done|].
  destruct c; try discriminate Hc; exact IH.
Qed.

Lemma sleeps_two_none (l : history) :
  Forall (fun e => sleep_secs e = None) l ->
  Forall (fun e => forall secs, sleep_secs e = Some secs -> secs = 2) l.
Proof.
  intros Hl. eapply Forall_impl; [exact Hl|]. intros ev Hev secs.
  cbv beta in Hev. by rewrite Hev.
Qed.

Lemma create_virtual_machine_slept (env : provider) (fuel : nat)
    (p : params) (h : history) :
  clock_advances env ->
  exists new : history,
    snd (create_virtual_machine env fuel p h) = h ++ new /\
    Forall (fun e => forall secs, sleep_secs e = Some secs -> secs = 2) new /\
    slept new <= Z.max 0 (wait_timeout p + 1).
Proof.
  intros Hclock. destruct (exact_count p) as [e|] eqn:He.
  - destruct (create_virtual_machine_reaches env fuel p e h He)
      as (pre0 & existing & needed & -> & Hmode).
    destruct (reaches_pre0_facts p e pre0 existing needed h env Hmode)
      as (_ & _ & _ & Hs0).
    destruct (create_and_report_structure env fuel p existing needed
                (h ++ pre0)) as (w & _ & _ & _ & Hsl & Hcases).
    destruct (Hsl Hclock) as [Hw2 Hbound].
    set (cs := replicate (Z.to_nat needed) (create_event p)) in *.
    assert (Forall (fun e => sleep_secs e = None) cs) as Hcs
      by apply create_events_facts.
    assert (forall tail : history,
              Forall (fun e => sleep_secs e = None) tail ->
              Forall (fun e => forall secs, sleep_secs e = Some secs
                               -> secs = 2) (pre0 ++ cs ++ w ++ tail) /\
              slept (pre0 ++ cs ++ w ++ tail)
              <= Z.max 0 (wait_timeout p + 1)) as Hgen.
    { intros tail Ht. split.
      - repeat (apply Forall_app; split); auto using sleeps_two_none.
      - rewrite !slept_app, (slept_none pre0 Hs0), (slept_none cs Hcs),
          (slept_none tail Ht). lia. }
    destruct Hcases as [(rs & -> & _) | [(-> & _) | (-> & _)]]; simpl.
    + eexists. rewrite <- !app_assoc. split; [done|].
      apply Hgen, raw_events_facts.
    + exists (pre0 ++ cs ++ w ++ []). rewrite app_nil_r, <- !app_assoc.
      split; [done|]. pose proof (Hgen [] (Forall_nil_2 _)) as Hg.
      by rewrite app_nil_r in Hg.
    + exists (pre0 ++ cs ++ w ++ []). rewrite app_nil_r, <- !app_assoc.
      split; [done|]. pose proof (Hgen [] (Forall_nil_2 _)) as Hg.
      by rewrite app_nil_r in Hg.
  - rewrite create_virtual_machine_unset by done. exists [].
    rewrite app_nil_r. split; [done|]. split; [done|]. simpl. lia.
Qed.

Lemma delete_machines_slept (env : provider) (fuel : nat) (p : params)
    (h : history) :
  clock_advances env ->
  exists new : history,
    snd (delete_machines env fuel p h) = h ++ new /\
    Forall (fun e => forall secs, sleep_secs e = Some secs -> secs = 2) new /\
    slept new <= Z.max 0 (wait_timeout p + 1).
Proof.
  intros Hclock. rewrite delete_machines_unfold.
  assert (Forall (fun e => sleep_secs e = None) (selected env p h).2) as Hsel.
  { unfold selected.
    destruct (truthy_dict (tags p)); [|destruct (truthy_str (machine_id p))];
      simpl; repeat constructor. }
  destruct (selected env p h).1 as [|sm ms] eqn:Hms.
  - exists (selected env p h).2. split; [done|].
    split; [by apply sleeps_two_none|]. rewrite (slept_none _ Hsel). lia.
  - assert (Forall (fun e => sleep_secs e = None) (stop_events (sm :: ms)))
      as Hstop
      by (unfold stop_events; apply Forall_fmap, Forall_forall; done).
    assert (Forall (fun e => sleep_secs e = None) (delete_events (sm :: ms)))
      as Hdel
      by (unfold delete_events; apply Forall_fmap, Forall_forall; done).
    destruct (wait_for_status_slept env fuel p (sm :: ms) "stopped"
                ((h ++ (selected env p h).2) ++ stop_events (sm :: ms)) Hclock)
      as (w & Hsnd & Hw2 & Hbound).
    destruct (_wait_for_status env fuel p (sm :: ms) "stopped"
                ((h ++ (selected env p h).2) ++ stop_events (sm :: ms)))
      as [r h3].
    simpl in Hsnd. subst h3.
    assert (forall tail : history,
              Forall (fun e => sleep_secs e = None) tail ->
              Forall (fun e => forall secs, sleep_secs e = Some secs
                               -> secs = 2)
                ((selected env p h).2 ++ stop_events (sm :: ms) ++ w ++ tail)
              /\ slept ((selected env p h).2 ++ stop_events (sm :: ms)
                        ++ w ++ tail)
                 <= Z.max 0 (wait_timeout p + 1)) as Hgen.
    { intros tail Ht. split.
      - repeat (apply Forall_app; split); auto using sleeps_two_none.
      - rewrite !slept_app, (slept_none _ Hsel), (slept_none _ Hstop),
          (slept_none tail Ht). lia. }
    destruct r as [[]| | |]; simpl.
    + eexists. rewrite <- !app_assoc. split; [done|]. by apply Hgen.
    + exists ((selected env p h).2 ++ stop_events (sm :: ms) ++ w ++ []).
      rewrite app_nil_r, <- !app_assoc. split; [done|].
      pose proof (Hgen [] (Forall_nil_2 _)) as Hg.
      by rewrite app_nil_r in Hg.
    + exists ((selected env p h).2 ++ stop_events (sm :: ms) ++ w ++ []).
      rewrite app_nil_r, <- !app_assoc. split; [done|].
      pose proof (Hgen [] (Forall_nil_2 _)) as Hg.
      by rewrite app_nil_r in Hg.
    + exists ((selected env p h).2 ++ stop_events (sm :: ms) ++ w ++ []).
      rewrite app_nil_r, <- !app_assoc. split; [done|].
      pose proof (Hgen [] (Forall_nil_2 _)) as Hg.
      by rewrite app_nil_r in Hg.
Qed.

(** X15: when the clock advances, an invocation only ever sleeps two
    seconds at a time, and for less than [wait_timeout + 2] seconds in
    total (not at all when [wait_timeout <= 0]). *)
Theorem X15_sleep_bound (env : provider) (HAS_SMARTDC : bool) (fuel : nat)
    (p : params) (h : history) :
  clock_advances env ->
  exists new : history,
    snd (main env HAS_SMARTDC fuel p h) = h ++ new /\
    Forall (fun e => forall secs, sleep_secs e = Some secs -> secs = 2) new /\
    slept new <= Z.max 0 (wait_timeout p + 1).
Proof.
  intros Hclock. rewrite main_unfold.
  assert (forall r : outcome (bool * list raw_data),
            exists new : history,
              (r, h).2 = h ++ new /\
              Forall (fun e => forall secs, sleep_secs e = Some secs
                               -> secs = 2) new /\
              slept new <= Z.max 0 (wait_timeout p + 1)) as Hsame.
  { intros r. exists []. rewrite app_nil_r. split; [done|].
    split; [done|]. simpl. lia. }
  destruct HAS_SMARTDC; cbn [negb]; [|apply Hsame].
  destruct (truthy_str (account p)); cbn [negb]; [|apply Hsame].
  destruct (truthy_str (key_id p)); cbn [negb]; [|apply Hsame].
  destruct (String.eqb (state p) "absent").
  - destruct (delete_machines_slept env fuel p h Hclock)
      as (new & Hsnd & Hnew).
    destruct (delete_machines env fuel p h) as [[c| | |] h'];
      simpl in *; by exists new.
  - destruct (String.eqb (state p) "present"); [|apply Hsame].
    destruct (truthy_str (image p)); cbn [negb]; [|apply Hsame].
    by apply create_virtual_machine_slept.
Qed.

Lemma X15_sleep_bound_witness :
  let p := request ∅ role_web 1 (Some 2) true 5 in
  exists new : history,
    snd (main (simulated [] (always "provisioning")) true 301 p [])
      = [] ++ new /\
    Forall (fun e => forall secs, sleep_secs e = Some secs -> secs = 2) new /\
    slept new <= Z.max 0 (wait_timeout p + 1).
Proof.
  intros p.
  apply (X15_sleep_bound (simulated [] (always "provisioning")) true 301 p []).
  apply simulated_clock.
Defined.

(** The bound is reached: with a timeout of five seconds the run of the
    witness sleeps three times. *)
Example sleep_bound_reached :
  slept (snd (main (simulated [] (always "provisioning")) true 301
                (request ∅ role_web 1 (Some 2) true 5) []))
  = 6.
Proof. vm_compute. reflexivity. Qed.

(** ** Edge cases of the counts *)

(** X16: when a non-zero [exact_count] is already met by the machines the
    listing returns, the run makes the listing, asks for the raw data of
    the listed machines, in the order of the listing, and nothing else: no
    create call and, even with [wait] set, no status query; it returns
    [changed = False] and one record per listed machine. *)
Theorem X16_exact_count_met (env : provider) (fuel : nat) (p : params)
    (e : Z) (h : history) :
  exact_count p = Some e -> count_tag p <> ∅ -> e <> 0 ->
  let existing := env h _ (Machines (count_tag p) (Some "running")) in
  e <= Z.of_nat (length existing) ->
  exists rs : list raw_data,
    create_virtual_machine env fuel p h
    = (Ok (false, rs),
       h ++ [Ev (Machines (count_tag p) (Some "running"))]
         ++ raw_events existing) /\
    length rs = length existing.
Proof. apply exact_count_met_creates_nothing. Qed.

Lemma X16_exact_count_met_witness :
  let env := simulated [Machine "web-1"; Machine "web-2"]
               (always "provisioning") in
  let p := request ∅ role_web 1 (Some 2) true 600 in
  let existing := env [] _ (Machines (count_tag p) (Some "running")) in
  exists rs : list raw_data,
    create_virtual_machine env 0 p []
    = (Ok (false, rs),
       [] ++ [Ev (Machines (count_tag p) (Some "running"))]
          ++ raw_events existing) /\
    length rs = length existing.
Proof.
  intros env p.
  apply (X16_exact_count_met env 0 p 2 []).
  - reflexivity.
  - apply (bool_decide_unpack _). vm_compute. exact I.
  - discriminate.
  - simpl. lia.
Defined.

(** X17: in the fallback mode (empty [count_tag], or [exact_count] given
    as [0]) a [count] of zero or less makes the run do nothing at all: no
    call is issued and the result is [changed = False] with an empty list,
    with or without [wait]. *)
Theorem X17_fallback_nothing_to_create (env : provider) (fuel : nat)
    (p : params) (e : Z) (h : history) :
  exact_count p = Some e -> count_tag p = ∅ \/ e = 0 -> count p <= 0 ->
  create_virtual_machine env fuel p h = (Ok (false, []), h).
Proof.
  intros He Hor Hle.
  rewrite (create_virtual_machine_fallback env fuel p e h He Hor).
  destruct (create_and_report_idle env fuel p [] (count p) h Hle)
    as (rs & -> & Hrs).
  destruct rs; [|discriminate]. simpl. by rewrite app_nil_r.
Qed.

Lemma X17_fallback_nothing_to_create_witness :
  create_virtual_machine (simulated [Machine "web-1"] (always "running")) 0
    (request ∅ role_web 0 (Some 0) true 600) []
  = (Ok (false, []), []).
Proof.
  apply (X17_fallback_nothing_to_create
           (simulated [Machine "web-1"] (always "running")) 0
           (request ∅ role_web 0 (Some 0) true 600) 0 []).
  - reflexivity.
  - right. reflexivity.
  - simpl. lia.
Defined.

(** X18: a [state=absent] invocation with valid credentials, no tags and
    no usable [machine_id] ([None] or the empty string) ends with
    [changed = False] and an empty list, without any call. *)
Theorem X18_main_absent_nothing_selected (env : provider) (fuel : nat)
    (p : params) (h : history) :
  truthy_str (account p) = true -> truthy_str (key_id p) = true ->
  state p = "absent" -> tags p = ∅ -> truthy_str (machine_id p) = false ->
  main env true fuel p h = (Ok (false, []), h).
Proof.
  intros Ha Hk Hs Ht Hm. rewrite main_unfold, Ha, Hk, Hs.
  cbn [negb String.eqb Ascii.eqb Bool.eqb].
  rewrite delete_machines_unfold. unfold selected, truthy_dict.
  rewrite Ht, Hm, bool_decide_eq_false_2 by auto. simpl.
  by rewrite app_nil_r.
Qed.

Lemma X18_main_absent_nothing_selected_witness :
  main (simulated [Machine "web-1"] (always "running")) true 301
    (removal ∅ (Some "") 600) []
  = (Ok (false, []), []).
Proof.
  apply (X18_main_absent_nothing_selected
           (simulated [Machine "web-1"] (always "running")) 301
           (removal ∅ (Some "") 600) []); reflexivity.
Defined.

(** ** The merged tags *)

(** X19: the tags given to created machines bind a key to the value
    [count_tag] gives it, and otherwise to the value [tags] gives it; so
    their keys are the keys of [tags] together with those of [count_tag],
    and no tag of [tags] is lost unless [count_tag] overrides it. *)
Theorem X19_full_tags_lookup (p : params) (k : string) :
  full_tags p !! k
  = match count_tag p !! k with
    | Some v => Some v
    | None => tags p !! k
    end
  /\ dom (full_tags p) = dom (tags p) ∪ dom (count_tag p).
Proof.
  rewrite full_tags_union. split.
  - rewrite lookup_union. by destruct (count_tag p !! k), (tags p !! k).
  - rewrite dom_union_L. apply (comm_L (∪)).
Qed.

(** X20: the merge of line 206 does not depend on the order in which
    [tags.items()] and [count_tag.items()] list their pairs: for any
    ordering [l1] of the items of [tags] and any ordering [l2] of the items
    of [count_tag], [dict(l1 + l2)] is the tag set given to created
    machines. The order of the two operands does matter: with the
    operands swapped, [tags] would win on a shared key instead of
    [count_tag]. *)
Theorem X20_merge_any_order (p : params) (l1 l2 : list (string * string)) :
  l1 ≡ₚ items (tags p) ->
  l2 ≡ₚ items (count_tag p) ->
  dict (l1 ++ l2) = full_tags p /\
  dict (l2 ++ l1) = tags p ∪ count_tag p.
Proof.
  intros H1 H2.
  assert (NoDup l1.*1) as Hnd1.
  { rewrite H1. apply NoDup_fst_map_to_list. }
  assert (NoDup l2.*1) as Hnd2.
  { rewrite H2. apply NoDup_fst_map_to_list. }
  assert (list_to_map l1 = tags p) as E1.
  { rewrite (list_to_map_proper l1 (items (tags p)) Hnd1 H1).
    apply list_to_map_to_list. }
  assert (list_to_map l2 = count_tag p) as E2.
  { rewrite (list_to_map_proper l2 (items (count_tag p)) Hnd2 H2).
    apply list_to_map_to_list. }
  rewrite full_tags_union. unfold dict. rewrite !fold_left_app.
  rewrite (fold_insert_union l1 ∅ Hnd1), (fold_insert_union l2 ∅ Hnd2).
  rewrite (fold_insert_union l2 _ Hnd2), (fold_insert_union l1 _ Hnd1).
  rewrite !(right_id_L ∅ (∪)). by rewrite E1, E2.
Qed.

Lemma X20_merge_any_order_witness :
  let p := request {[ "role" := "db"; "env" := "prod" ]} role_web 1 None false 0 in
  let l1 := [("env", "prod"); ("role", "db")] in
  let l1' := [("role", "db"); ("env", "prod")] in
  let l2 := [("role", "web")] in
  l1 ≡ₚ items (tags p) /\ l1' ≡ₚ items (tags p) /\
  l2 ≡ₚ items (count_tag p) /\
  dict (l1 ++ l2) = full_tags p /\
  dict (l1' ++ l2) = full_tags p /\
  full_tags p !! "role" = Some "web" /\
  dict (l2 ++ l1) !! "role" = Some "db".
Proof.
  intros p l1 l1' l2.
  assert (l1 ≡ₚ items (tags p)) as H1.
  { vm_compute. first [reflexivity | apply perm_swap]. }
  assert (l1' ≡ₚ items (tags p)) as H1'.
  { vm_compute. first [reflexivity | apply perm_swap]. }
  assert (l2 ≡ₚ items (count_tag p)) as H2 by (vm_compute; reflexivity).
  split; [exact H1|]. split; [exact H1'|]. split; [exact H2|].
  split; [exact (proj1 (X20_merge_any_order p l1 l2 H1 H2))|].
  split; [exact (proj1 (X20_merge_any_order p l1' l2 H1' H2))|].
  split; reflexivity.
Defined.

End Sdc.
